(** * A shallow embedding of [app.py], the medical question assistant

    The pure core of the program (trust scoring, severity classification,
    result ranking) and the two functions that talk to the search service
    and to the completion model are embedded here as Rocq functions.

    Conventions of the model:
    - a Python [str] is a Rocq [string]: the sequence of bytes of its UTF-8
      encoding.  Every literal the program compares against is ASCII, and
      a substring test with an ASCII needle gives the same answer on code
      points and on UTF-8 bytes.  [str.lower] is modelled on the ASCII
      letters and on the two characters outside ASCII whose lower case
      holds ASCII letters (U+212A, U+0130); [str.strip] on all the white
      space of [str.isspace];
    - the scores are the floats 3, 3.5, 4, 4.5, 5 and their sums with 0.5
      and -1: all multiples of one half, exact in binary floating point,
      so they are modelled as rationals ([Q]);
    - an exception is a value: a computation that can raise returns a
      [Result]; [try ... except Exception] is a match on it;
    - the outside world (the HTTP search endpoint, the completion model,
      the secrets) is an explicit argument, and every call to it is
      recorded in a trace. *)

From Stdlib Require Import String Ascii List Bool NArith ZArith QArith Qminmax Lia.
Import ListNotations.
Open Scope string_scope.

(** ** Exceptions *)

(** The exceptions the modelled code can meet inside its [try] blocks. *)
Inductive Exn : Type :=
| ValueError                  (* urllib.parse: the link has no valid authority *)
| KeyError (key : string)     (* item["title"] on an item without that key *)
| ConnectionError             (* requests.get could not reach the endpoint *)
| HTTPError (status : Z)      (* response.raise_for_status() *)
| JSONDecodeError.            (* response.json() on a body that is no JSON object *)

Inductive Result (A : Type) : Type :=
| Return (a : A)
| Raise (e : Exn).
Arguments Return {A} a.
Arguments Raise {A} e.

Definition bind {A B : Type} (r : Result A) (k : A -> Result B) : Result B :=
  match r with
  | Return a => k a
  | Raise e => Raise e
  end.

Notation "x <- r ;; k" := (bind r (fun x => k))
  (at level 61, r at next level, right associativity).

(** ** Python strings *)

Module Str.

Definition code (c : ascii) : N := N_of_ascii c.

Definition is_upper (c : ascii) : bool := ((65 <=? code c) && (code c <=? 90))%N.
Definition is_lower (c : ascii) : bool := ((97 <=? code c) && (code c <=? 122))%N.
Definition is_digit (c : ascii) : bool := ((48 <=? code c) && (code c <=? 57))%N.
Definition is_ascii_char (c : ascii) : bool := (code c <? 128)%N.

(** [c.isascii() and c.isalpha()] *)
Definition is_ascii_alpha (c : ascii) : bool := is_upper c || is_lower c.

Definition lower_char (c : ascii) : ascii :=
  if is_upper c then ascii_of_N (code c + 32) else c.

Definition byte (n : N) : ascii := ascii_of_N n.

(** One character in front of a text that is in lower case already.
    Two characters outside ASCII have ASCII letters in their lower case:
    U+212A KELVIN SIGN (the bytes E2 84 AA) gives [k], and U+0130 LATIN
    CAPITAL LETTER I WITH DOT ABOVE (the bytes C4 B0) gives [i] and
    U+0307 (the bytes CC 87). *)
Definition lower_step (c : ascii) (rest : string) : string :=
  if Ascii.eqb c (byte 226) then
    match rest with
    | String d (String e rest') =>
        if Ascii.eqb d (byte 132) && Ascii.eqb e (byte 170)
        then String "k" rest'
        else String c rest
    | _ => String c rest
    end
  else if Ascii.eqb c (byte 196) then
    match rest with
    | String d rest' =>
        if Ascii.eqb d (byte 176)
        then String "i" (String (byte 204) (String (byte 135) rest'))
        else String c rest
    | EmptyString => String c rest
    end
  else String (lower_char c) rest.

(** [s.lower()], read on the UTF-8 bytes.  The ASCII capitals become
    small letters, and the two characters of [lower_step] become their
    lower case.  The lower case of every other character outside ASCII
    is made of characters outside ASCII, one at least: such a character
    is left as it is, which no test [w in s.lower()] with an ASCII word
    [w] can tell from its lower case.  The program uses [lower] in such
    tests only. *)
Fixpoint lower (s : string) : string :=
  match s with
  | EmptyString => EmptyString
  | String c s' => lower_step c (lower s')
  end.

(** [(s + t).lower()], given [rest = t.lower()]. *)
Fixpoint lower_onto (s rest : string) : string :=
  match s with
  | EmptyString => rest
  | String c s' => lower_step c (lower_onto s' rest)
  end.

(** [sub in s] *)
Fixpoint contains (sub s : string) : bool :=
  prefix sub s ||
  match s with
  | EmptyString => false
  | String _ s' => contains sub s'
  end.

Fixpoint forall_chars (p : ascii -> bool) (s : string) : bool :=
  match s with
  | EmptyString => true
  | String c s' => p c && forall_chars p s'
  end.

(** [s.isascii()] *)
Definition isascii (s : string) : bool := forall_chars is_ascii_char s.

Fixpoint filter_chars (p : ascii -> bool) (s : string) : string :=
  match s with
  | EmptyString => EmptyString
  | String c s' => if p c then String c (filter_chars p s') else filter_chars p s'
  end.

Fixpoint lstrip_chars (p : ascii -> bool) (s : string) : string :=
  match s with
  | EmptyString => EmptyString
  | String c s' => if p c then lstrip_chars p s' else s
  end.

Fixpoint rev_onto (s acc : string) : string :=
  match s with
  | EmptyString => acc
  | String c s' => rev_onto s' (String c acc)
  end.

Definition rev (s : string) : string := rev_onto s EmptyString.

(** The ASCII characters for which [str.isspace] holds: tab, line feed,
    vertical tab, form feed, carriage return, the four separators
    0x1c-0x1f and the space. *)
Definition is_space (c : ascii) : bool :=
  ((9 <=? code c) && (code c <=? 13) || (28 <=? code c) && (code c <=? 32))%N.

(** The characters of two bytes for which [str.isspace] holds: U+0085
    (C2 85) and U+00A0 (C2 A0). *)
Definition is_space2 (c d : ascii) : bool :=
  Ascii.eqb c (byte 194) && (Ascii.eqb d (byte 133) || Ascii.eqb d (byte 160)).

(** Those of three bytes: U+1680 (E1 9A 80), U+2000 to U+200A (E2 80 80
    to E2 80 8A), U+2028, U+2029 and U+202F (E2 80 A8, A9, AF), U+205F
    (E2 81 9F) and U+3000 (E3 80 80). *)
Definition is_space3 (c d e : ascii) : bool :=
  (Ascii.eqb c (byte 225) && Ascii.eqb d (byte 154) && Ascii.eqb e (byte 128))
  || (Ascii.eqb c (byte 226) && Ascii.eqb d (byte 128)
      && (((128 <=? code e) && (code e <=? 138))%N
          || Ascii.eqb e (byte 168) || Ascii.eqb e (byte 169) || Ascii.eqb e (byte 175)))
  || (Ascii.eqb c (byte 226) && Ascii.eqb d (byte 129) && Ascii.eqb e (byte 159))
  || (Ascii.eqb c (byte 227) && Ascii.eqb d (byte 128) && Ascii.eqb e (byte 128)).

(** [s.lstrip()] *)
Fixpoint lstrip (s : string) : string :=
  match s with
  | EmptyString => EmptyString
  | String c r1 =>
      if is_space c then lstrip r1
      else
        match r1 with
        | EmptyString => s
        | String d r2 =>
            if is_space2 c d then lstrip r2
            else
              match r2 with
              | EmptyString => s
              | String e r3 => if is_space3 c d e then lstrip r3 else s
              end
        end
  end.

(** [s.rstrip()] on the reversed text: the bytes of a character come
    last byte first.  In UTF-8 the last bytes of a text are those of its
    last character, so the test on the bytes is the test on the
    character. *)
Fixpoint rstrip_reversed (s : string) : string :=
  match s with
  | EmptyString => EmptyString
  | String e r1 =>
      if is_space e then rstrip_reversed r1
      else
        match r1 with
        | EmptyString => s
        | String d r2 =>
            if is_space2 d e then rstrip_reversed r2
            else
              match r2 with
              | EmptyString => s
              | String c r3 => if is_space3 c d e then rstrip_reversed r3 else s
              end
        end
  end.

(** [s.strip()] *)
Definition strip (s : string) : string :=
  rev (rstrip_reversed (rev (lstrip s))).

(** [s.partition(c)] at the first occurrence of the character [c]:
    [None] when [c] does not occur. *)
Fixpoint split_at_char (c : ascii) (s : string) : option (string * string) :=
  match s with
  | EmptyString => None
  | String d s' =>
      if Ascii.eqb c d then Some (EmptyString, s')
      else match split_at_char c s' with
           | Some (pre, post) => Some (String d pre, post)
           | None => None
           end
  end.

End Str.

(** ** [urllib.parse] *)

(** [urlparse(link).netloc], after CPython's [urllib.parse.urlsplit]
    (3.12).  [urlparse] itself only splits the parameters off the path and
    leaves the authority as [urlsplit] found it. *)
Module Urllib.

(** Two validators of [urlsplit] need tables that are not modelled: the
    check of a bracketed host (the [ipaddress] module and a regular
    expression) and the check of a non-ASCII authority under NFKC
    normalisation ([unicodedata]).  Each answers [true] when it accepts
    its argument, [false] when it raises [ValueError]. *)
Class Internals : Type := {
  check_bracketed_netloc : string -> bool;
  nfkc_normalized_ok : string -> bool
}.

(** [_WHATWG_C0_CONTROL_OR_SPACE]: the characters 0x00-0x20. *)
Definition c0_control_or_space (c : ascii) : bool := (Str.code c <=? 32)%N.

(** [_UNSAFE_URL_BYTES_TO_REMOVE]: tab, carriage return, line feed. *)
Definition unsafe_url_byte (c : ascii) : bool :=
  ((Str.code c =? 9) || (Str.code c =? 13) || (Str.code c =? 10))%N.

(** [scheme_chars]: the ASCII letters and digits and ["+-."]. *)
Definition scheme_char (c : ascii) : bool :=
  Str.is_ascii_alpha c || Str.is_digit c ||
  ((Str.code c =? 43) || (Str.code c =? 45) || (Str.code c =? 46))%N.

(** The scheme test of [urlsplit]: with [i = url.find(':')], when
    [i > 0], [url[0]] is an ASCII letter and every character of
    [url[:i]] is a scheme character, the scheme is cut off and the rest
    is [url[i+1:]]; otherwise the url is left whole. *)
Definition drop_scheme (url : string) : string :=
  match Str.split_at_char ":" url with
  | Some (String c0 pre, post) =>
      if Str.is_ascii_alpha c0 && Str.forall_chars scheme_char (String c0 pre)
      then post else url
  | _ => url
  end.

Definition netloc_delim (c : ascii) : bool :=
  (Ascii.eqb c "/" || Ascii.eqb c "?" || Ascii.eqb c "#")%char.

(** [_splitnetloc(url, 2)[0]] for a [url] given without its first two
    characters: everything before the first of ['/'], ['?'], ['#']. *)
Fixpoint splitnetloc (s : string) : string :=
  match s with
  | EmptyString => EmptyString
  | String c s' => if netloc_delim c then EmptyString else String c (splitnetloc s')
  end.

(** [_checknetloc]: nothing to check on an empty or ASCII authority. *)
Definition checknetloc `{Internals} (netloc : string) : bool :=
  match netloc with
  | EmptyString => true
  | _ => Str.isascii netloc || nfkc_normalized_ok netloc
  end.

Definition urlparse_netloc `{Internals} (url : string) : Result string :=
  let url := Str.lstrip_chars c0_control_or_space url in
  let url := Str.filter_chars (fun c => negb (unsafe_url_byte c)) url in
  let url := drop_scheme url in
  netloc <-
    match url with
    | String "/" (String "/" rest) =>
        let netloc := splitnetloc rest in
        if (Str.contains "[" netloc && negb (Str.contains "]" netloc))
           || (Str.contains "]" netloc && negb (Str.contains "[" netloc))
        then Raise ValueError
        else if Str.contains "[" netloc && Str.contains "]" netloc
                && negb (check_bracketed_netloc netloc)
        then Raise ValueError
        else Return netloc
    | _ => Return EmptyString
    end ;;
  if checknetloc netloc then Return netloc else Raise ValueError.

(** An instance for running the model: both validators accept. *)
Definition lenient : Internals :=
  {| check_bracketed_netloc := fun _ => true;
     nfkc_normalized_ok := fun _ => true |}.

End Urllib.

(** ** Trust score *)

Import Str.

Definition compute_trust_score `{Urllib.Internals} (link snippet : string) : Result Q :=
  netloc <- Urllib.urlparse_netloc link ;;
  let domain := lower netloc in
  let score : Q :=
    if existsb (fun site => contains site domain)
         ["nhs.uk"; "cdc.gov"; "who.int"; "mayoclinic.org"; "clevelandclinic.org"]
    then 5
    else if existsb (fun site => contains site domain)
              ["gov"; "edu"; "health.harvard.edu"]
    then 4.5
    else if contains "webmd.com" domain || contains "medlineplus.gov" domain
    then 4
    else if contains "pubmed" domain
    then 3.5
    else 3 in
  let score : Q :=
    if existsb (fun year => contains year snippet) ["2024"; "2023"; "2022"]
    then score + 0.5
    else score in
  Return (Qmin score 5.0).

(** ** The search service and the completion model *)

(** An item of a search response: a JSON object with string values, as
    the list of its bindings, each key bound once.  The program reads the
    keys ["title"], ["link"] and ["snippet"]. *)
Definition Item : Type := list (string * string).

Fixpoint lookup (k : string) (d : Item) : option string :=
  match d with
  | [] => None
  | (k', v) :: d' => if String.eqb k k' then Some v else lookup k d'
  end.

(** [d[k]] *)
Definition getitem (d : Item) (k : string) : Result string :=
  match lookup k d with
  | Some v => Return v
  | None => Raise (KeyError k)
  end.

(** [d.get(k, default)] *)
Definition get (d : Item) (k default : string) : string :=
  match lookup k d with
  | Some v => v
  | None => default
  end.

(** The body of an HTTP response as [response.json()] sees it: either it
    raises, or it is a JSON object that may have an ["items"] list. *)
Inductive Body : Type :=
| NotJson
| JsonObject (items : option (list Item)).

Record Response : Type := {
  status_code : Z;
  body : Body
}.

Record Params : Type := {
  key : string;
  cx : string;
  q : string;
  num : Z
}.

(** What the [try] block around the completion call comes to: the text
    of the first choice, or an exception [e], kept as [str(e)]. *)
Inductive Completion : Type :=
| CompletionRaises (str_e : string)
| CompletionContent (content : string).

(** The secrets and the two remote services. *)
Record World : Type := {
  GOOGLE_API_KEY : string;
  GOOGLE_CX : string;
  SOCIAL_GOOGLE_CX : string;
  requests_get : string -> Params -> Result Response;
  chat_completions_create : string -> string -> Completion
}.

(** The remote calls a function made, in order. *)
Inductive Call : Type :=
| SearchCall (url : string) (params : Params)
| CompletionCall (model prompt : string).

Definition is_completion_call (c : Call) : bool :=
  match c with
  | CompletionCall _ _ => true
  | SearchCall _ _ => false
  end.

(** [response.raise_for_status()] of the requests library: an
    [HTTPError] for a 4xx or 5xx status, nothing otherwise. *)
Definition raise_for_status (r : Response) : Result unit :=
  if ((400 <=? status_code r) && (status_code r <? 600))%Z
  then Raise (HTTPError (status_code r))
  else Return tt.

(** [response.json()] *)
Definition json (r : Response) : Result (option (list Item)) :=
  match body r with
  | NotJson => Raise JSONDecodeError
  | JsonObject items => Return items
  end.

(** [data.get("items", [])] *)
Definition get_items (data : option (list Item)) : list Item :=
  match data with
  | Some items => items
  | None => []
  end.

(** ** [list.sort(key=...)]: a stable sort *)

Section Sort.
Context {A : Type} (sort_key : A -> Z).

Fixpoint insert_sorted (x : A) (l : list A) : list A :=
  match l with
  | [] => [x]
  | y :: l' =>
      if (sort_key x <=? sort_key y)%Z then x :: l else y :: insert_sorted x l'
  end.

Definition sort (l : list A) : list A := fold_right insert_sorted [] l.
End Sort.

(** ** Medical search *)

Definition TRUSTED_SITES : list string :=
  [ "site:nhs.uk"; "site:nih.gov"; "site:mayoclinic.org"; "site:who.int";
    "site:cdc.gov"; "site:clevelandclinic.org"; "site:health.harvard.edu";
    "site:pubmed.ncbi.nlm.nih.gov"; "site:webmd.com"; "site:medlineplus.gov" ].

Definition SEARCH_URL : string := "https://www.googleapis.com/customsearch/v1".

(** The tuples [(title, link, snippet, score)]. *)
Definition SourceRecord : Type := (string * string * string * Q)%type.

Definition nhs_first (x : Item) : Z :=
  if contains "nhs.uk" (get x "link" EmptyString) then 0%Z else 1%Z.

(** The body of the loop over the items: the tuple it appends. *)
Definition medical_record `{Urllib.Internals} (item : Item) : Result SourceRecord :=
  title <- getitem item "title" ;;
  link <- getitem item "link" ;;
  snippet <- getitem item "snippet" ;;
  score <- compute_trust_score link snippet ;;
  Return (title, link, snippet, score).

(** The loop [for item in items: ... results.append(...)]. *)
Fixpoint medical_loop `{Urllib.Internals} (items : list Item) (results : list SourceRecord)
  : Result (list SourceRecord) :=
  match items with
  | [] => Return results
  | item :: items' =>
      record <- medical_record item ;;
      medical_loop items' (results ++ [record])%list
  end.

Definition medical_params (w : World) (query : string) (num_results : Z) : Params :=
  let domain_query := String.concat " OR " TRUSTED_SITES in
  let full_query := query ++ " (" ++ domain_query ++ ")" in
  {| key := GOOGLE_API_KEY w; cx := GOOGLE_CX w; q := full_query; num := num_results |}.

Definition get_medical_snippets `{Urllib.Internals}
    (w : World) (query : string) (num_results : Z) : list SourceRecord * list Call :=
  let params := medical_params w query num_results in
  let attempt :=
    response <- requests_get w SEARCH_URL params ;;
    _ <- raise_for_status response ;;
    data <- json response ;;
    let items := get_items data in
    let items := sort nhs_first items in
    medical_loop items [] in
  (match attempt with
   | Return results => results
   | Raise _ => []
   end,
   [SearchCall SEARCH_URL params]).

(** ** Answering *)

Definition nl : string := String (ascii_of_N 10) EmptyString.
Definition dquote : string := String (ascii_of_N 34) EmptyString.

Definition MODEL : string := "gpt-4o".
Definition FALLBACK : string := "Sorry, no reliable sources available now.".
Definition DISCLAIMER : string := "**Disclaimer:** Always consult your healthcare provider.".

Definition answer_prompt (context question : string) : string :=
  nl ++ "Answer clearly using snippets below." ++ nl
     ++ "Mention both common and serious conditions if symptoms provided." ++ nl
     ++ "End with: " ++ dquote ++ "Talk to a doctor to be sure." ++ dquote ++ nl
     ++ nl
     ++ "Snippets:" ++ nl
     ++ context ++ nl
     ++ nl
     ++ "Question: " ++ question ++ nl
     ++ nl
     ++ "Answer:" ++ nl.

Definition answer_medical_question `{Urllib.Internals}
    (w : World) (question : string) : (string * list SourceRecord) * list Call :=
  let '(snippets, calls) := get_medical_snippets w question 5 in
  match snippets with
  | [] => ((FALLBACK, []), calls)
  | _ =>
      let context :=
        String.concat nl (map (fun '(title, link, snippet, score) =>
                          "- **" ++ title ++ "**: " ++ snippet) snippets) in
      let sources :=
        map (fun '(title, link, snippet, score) => (title, link, snippet, score))
            snippets in
      let prompt := answer_prompt context question in
      (match chat_completions_create w MODEL prompt with
       | CompletionContent content =>
           (strip content ++ nl ++ nl ++ DISCLAIMER, sources)
       | CompletionRaises e =>
           ("OpenAI API Error: " ++ e, [])
       end,
       (calls ++ [CompletionCall MODEL prompt])%list)
  end.

(** ** Severity *)

Definition IMMEDIATE : string := "🔴 Immediate".
Definition URGENT : string := "🟠 Urgent".
Definition ROUTINE : string := "🟢 Routine".

(** The dict, in insertion order. *)
Definition SEVERITY_KEYWORDS : list (string * list string) :=
  [ (IMMEDIATE, ["chest pain"; "vision loss"; "stroke"; "aneurysm"; "severe headache"]);
    (URGENT, ["high fever"; "severe pain"; "vomiting"; "sudden dizziness"]);
    (ROUTINE, []) ].

Definition classify_severity (query : string) : string :=
  let q := lower query in
  match find (fun '(level, words) => existsb (fun w => contains w q) words)
             SEVERITY_KEYWORDS with
  | Some (level, _) => level
  | None => "🟢 Routine"
  end.

(** ** Social media search *)

Definition SOCIAL_MEDIA_SITES : list string :=
  [ "site:reddit.com"; "site:healthunlocked.com" ].

(** The body of the loop over the items: the tuple it appends. *)
Definition social_record `{Urllib.Internals} (item : Item) : Result SourceRecord :=
  title <- getitem item "title" ;;
  link <- getitem item "link" ;;
  snippet <- getitem item "snippet" ;;
  trust <- compute_trust_score link snippet ;;
  let score := trust - 1 in
  Return (title, link, snippet, Qmax score 1.0).

(** The loop [for item in ...: ... snippets.append(...)] on the list
    [snippets] of the caller: when an item raises, what was appended
    before it stays. *)
Fixpoint social_loop `{Urllib.Internals} (items : list Item) (snippets : list SourceRecord)
  : list SourceRecord * Result unit :=
  match items with
  | [] => (snippets, Return tt)
  | item :: items' =>
      match social_record item with
      | Return record => social_loop items' (snippets ++ [record])%list
      | Raise e => (snippets, Raise e)
      end
  end.

Definition social_params (w : World) (query site : string) (num_results_per_site : Z)
  : Params :=
  let full_query := query ++ " (" ++ site ++ ")" in
  {| key := GOOGLE_API_KEY w; cx := SOCIAL_GOOGLE_CX w; q := full_query;
     num := num_results_per_site |}.

(** One turn of the loop over the sites: the [try] block and its
    [except Exception: continue]. *)
Definition social_site `{Urllib.Internals}
    (w : World) (query : string) (num_results_per_site : Z)
    (snippets : list SourceRecord) (site : string) : list SourceRecord :=
  let params := social_params w query site num_results_per_site in
  let attempt :=
    response <- requests_get w SEARCH_URL params ;;
    _ <- raise_for_status response ;;
    data <- json response ;;
    Return (get_items data) in
  match attempt with
  | Return items => fst (social_loop items snippets)
  | Raise _ => snippets
  end.

Definition get_social_snippets `{Urllib.Internals}
    (w : World) (query : string) (num_results_per_site : Z)
  : list SourceRecord * list Call :=
  (fold_left (social_site w query num_results_per_site) SOCIAL_MEDIA_SITES [],
   map (fun site => SearchCall SEARCH_URL (social_params w query site num_results_per_site))
       SOCIAL_MEDIA_SITES).

(** ** The tests of the scoring cascade, named for the statements *)

Definition top_tier (domain : string) : bool :=
  existsb (fun site => contains site domain)
    ["nhs.uk"; "cdc.gov"; "who.int"; "mayoclinic.org"; "clevelandclinic.org"].

Definition generic_tier (domain : string) : bool :=
  existsb (fun site => contains site domain) ["gov"; "edu"; "health.harvard.edu"].

Definition consumer_tier (domain : string) : bool :=
  contains "webmd.com" domain || contains "medlineplus.gov" domain.

Definition literature_tier (domain : string) : bool := contains "pubmed" domain.

Definition recent (snippet : string) : bool :=
  existsb (fun year => contains year snippet) ["2024"; "2023"; "2022"].

(** ** The outcomes of a search call, named for the statements *)

(** The items of a response: those of its ["items"] list when the call
    returned a JSON object that has one. *)
Definition response_items (r : Result Response) : list Item :=
  match r with
  | Return response =>
      match body response with
      | JsonObject (Some items) => items
      | _ => []
      end
  | Raise _ => []
  end.

(** The failures of a search call: [requests.get] raises, the status is
    one for which [raise_for_status] raises, or [response.json()] raises. *)
Inductive search_fails : Result Response -> Prop :=
| transport_failure (e : Exn) : search_fails (Raise e)
| status_failure (response : Response) :
    (400 <= status_code response < 600)%Z -> search_fails (Return response)
| parse_failure (response : Response) :
    body response = NotJson -> search_fails (Return response).

(** ** Proactive advisories *)

(** The dict, in insertion order. *)
Definition RISK_SNIPPETS : list (string * string) :=
  [ ("antibiotics", "Misuse of antibiotics can lead to antibiotic resistance.");
    ("vaccines", "Vaccines do not cause autism; they are safe and thoroughly tested.");
    ("ibuprofen", "Long-term use of ibuprofen may cause kidney or stomach problems.");
    ("detox", "Your body detoxifies naturally; detox teas or regimens are often unnecessary and risky.");
    ("fatigue", "Persistent fatigue might signal anemia, thyroid issues, or depression.");
    ("vision loss", "Sudden vision loss is a medical emergency. Seek immediate care.");
    ("headache", "Sudden severe headache could mean stroke. Don’t delay medical help.");
    ("chest pain", "Chest pain might indicate a heart attack. Go to the ER immediately.");
    ("rash", "If rash is accompanied by fever or trouble breathing, see a doctor quickly.") ].

Definition get_risk_snippets (query : string) : list string :=
  map snd
      (filter (fun '(keyword, snippet) => contains keyword (lower query)) RISK_SNIPPETS).

(** ** Expressions of the page *)

(** [int(x)] on a float: the integer part, rounded toward zero. *)
Definition int (x : Q) : Z := Z.quot (Qnum x) (Zpos (Qden x)).

(** [s * n]: the empty string when [n <= 0]. *)
Definition repeat_string (s : string) (n : Z) : string :=
  Nat.iter (Z.to_nat n) (fun acc => s ++ acc) EmptyString.

(** [stars = "⭐" * int(score)] *)
Definition stars (score : Q) : string := repeat_string "⭐" (int score).

(** ** The start of a special character, for the lemmas on [lower] *)

(** The bytes a text can end with that are the start of one of the two
    characters of [lower_step]. *)
Inductive dangling : string -> Prop :=
| dangling_none : dangling EmptyString
| dangling_E2 : dangling (String (byte 226) EmptyString)
| dangling_E2_84 : dangling (String (byte 226) (String (byte 132) EmptyString))
| dangling_C4 : dangling (String (byte 196) EmptyString).

(** A text that begins with one of the four bytes that come of such a
    start, none of them a continuation byte. *)
Definition starts_dangling (s : string) : Prop :=
  exists y r, s = String y r /\
              (y = byte 226 \/ y = byte 196 \/ y = "k"%char \/ y = "i"%char).

(** ** Sample data for the examples *)

Module Sample.

Definition item (title link snippet : string) : Item :=
  [("title", title); ("link", link); ("snippet", snippet)].

Definition ok (items : list Item) : Result Response :=
  Return {| status_code := 200; body := JsonObject (Some items) |}.

Definition world (search : Params -> Result Response) (completion : Completion) : World :=
  {| GOOGLE_API_KEY := "api-key";
     GOOGLE_CX := "medical-engine";
     SOCIAL_GOOGLE_CX := "social-engine";
     requests_get := fun _ params => search params;
     chat_completions_create := fun _ _ => completion |}.

Definition blog : Item := item "Blog" "https://example.com/blog" "My story".
Definition nhs : Item := item "NHS" "https://www.nhs.uk/conditions/" "Reviewed in 2023".
Definition nih : Item := item "NIH" "https://www.nih.gov/health" "Overview".

(** An item as the search service sends it for a page without text: it
    has no snippet. *)
Definition bare : Item := [("title", "Scan"); ("link", "https://example.org/scan.pdf")].

Definition reddit : Item := item "Thread" "https://www.reddit.com/r/health" "What helped me".
Definition forum : Item := item "Post" "https://healthunlocked.com/post" "Ask your GP".

Definition answer : Completion := CompletionContent " Rest and fluids. ".

End Sample.

(** * Properties *)

(** ** Strings *)

Lemma prefix_append (p t : string) : prefix p (p ++ t) = true.
Proof.
  induction p as [|c p IH]; simpl.
  - destruct t; reflexivity.
  - destruct (ascii_dec c c) as [_|ne]; [exact IH | now elim ne].
Qed.

Lemma prefix_split (p s : string) : prefix p s = true -> exists t, s = p ++ t.
Proof.
  revert s; induction p as [|c p IH]; intros s H.
  - exists s; reflexivity.
  - destruct s as [|d s]; simpl in H; [discriminate|].
    destruct (ascii_dec c d) as [->|]; [|discriminate].
    destruct (IH s H) as [t ->]. exists t; reflexivity.
Qed.

Lemma prefix_contains (w s : string) : prefix w s = true -> contains w s = true.
Proof. intros H. destruct s; cbn [contains]; rewrite H; reflexivity. Qed.

Lemma contains_append (a w b : string) : contains w (a ++ w ++ b) = true.
Proof.
  induction a as [|c a IH].
  - cbn [append]. apply prefix_contains, prefix_append.
  - simpl. rewrite IH. apply orb_true_r.
Qed.

Lemma contains_split (w s : string) :
  contains w s = true -> exists a b, s = a ++ w ++ b.
Proof.
  induction s as [|c s IH]; cbn [contains]; intros H.
  - rewrite orb_false_r in H. destruct (prefix_split _ _ H) as [t E].
    exists EmptyString, t. exact E.
  - apply orb_true_iff in H as [H|H].
    + destruct (prefix_split _ _ H) as [t E]. exists EmptyString, t. exact E.
    + destruct (IH H) as (a & b & ->). exists (String c a), b. reflexivity.
Qed.

Lemma prefix_empty (s : string) : prefix EmptyString s = true.
Proof. destruct s; reflexivity. Qed.

Lemma contains_empty (s : string) : contains EmptyString s = true.
Proof. destruct s; reflexivity. Qed.

Lemma contains_cons (w : string) (c : ascii) (s : string) :
  contains w s = true -> contains w (String c s) = true.
Proof. intros Hc. cbn [contains]. rewrite Hc. apply orb_true_r. Qed.

Lemma prefix_head (x d : ascii) (w t : string) :
  prefix (String x w) (String d t) = true -> x = d /\ prefix w t = true.
Proof.
  cbn [prefix]. destruct (ascii_dec x d) as [->|]; [now split | discriminate].
Qed.

(** A word of ASCII characters does not start at a byte that is not
    ASCII. *)
Lemma contains_behead (w : string) (d : ascii) (t : string) :
  isascii w = true -> is_ascii_char d = false ->
  contains w (String d t) = true -> contains w t = true.
Proof.
  intros Hw Hd Hc. cbn [contains] in Hc. apply orb_true_iff in Hc as [Hp|Hc]; [|exact Hc].
  destruct w as [|x w]; [apply contains_empty|].
  apply prefix_head in Hp as [-> _].
  cbn [isascii forall_chars] in Hw. rewrite Hd in Hw. discriminate.
Qed.

Lemma lower_step_keeps (w : string) (c : ascii) (t : string) :
  isascii w = true -> contains w t = true -> contains w (lower_step c t) = true.
Proof.
  intros Hw Hc. unfold lower_step.
  destruct (Ascii.eqb c (byte 226)).
  - destruct t as [|d [|e r]]; try now apply contains_cons.
    destruct (Ascii.eqb_spec d (byte 132)) as [->|]; [|now apply contains_cons].
    destruct (Ascii.eqb_spec e (byte 170)) as [->|]; [|now apply contains_cons].
    cbn [andb]. apply contains_cons.
    apply (contains_behead w (byte 170)); [exact Hw | reflexivity|].
    apply (contains_behead w (byte 132)); [exact Hw | reflexivity | exact Hc].
  - destruct (Ascii.eqb c (byte 196)); [|now apply contains_cons].
    destruct t as [|d r]; [now apply contains_cons|].
    destruct (Ascii.eqb_spec d (byte 176)) as [->|]; [|now apply contains_cons].
    do 3 apply contains_cons.
    apply (contains_behead w (byte 176)); [exact Hw | reflexivity | exact Hc].
Qed.

Lemma lower_onto_keeps (w a t : string) :
  isascii w = true -> contains w t = true -> contains w (lower_onto a t) = true.
Proof.
  intros Hw Hc. induction a as [|c a IH]; [exact Hc|].
  cbn [lower_onto]. now apply lower_step_keeps.
Qed.

Lemma lower_onto_empty (s : string) : lower_onto s EmptyString = lower s.
Proof. induction s as [|c s IH]; cbn [lower_onto lower]; [reflexivity | now rewrite IH]. Qed.

Lemma lower_onto_append (a b t : string) :
  lower_onto (a ++ b) t = lower_onto a (lower_onto b t).
Proof. induction a as [|c a IH]; cbn [append lower_onto]; [reflexivity | now rewrite IH]. Qed.

Lemma prefix_before_nonascii (w s d : string) :
  isascii w = true -> forall_chars (fun c => negb (is_ascii_char c)) d = true ->
  prefix w (s ++ d) = true -> prefix w s = true.
Proof.
  intros Hw Hd. revert w Hw. induction s as [|x s IH]; intros w Hw Hp.
  - cbn [append] in Hp. destruct w as [|y w]; [reflexivity|].
    destruct d as [|e d]; [discriminate Hp|].
    apply prefix_head in Hp as [-> _].
    cbn [isascii forall_chars] in Hw, Hd.
    destruct (is_ascii_char e); discriminate.
  - destruct w as [|y w]; [reflexivity|].
    cbn [append] in Hp. apply prefix_head in Hp as [-> Hp].
    cbn [isascii forall_chars] in Hw. apply andb_true_iff in Hw as [_ Hw].
    cbn [prefix]. destruct (ascii_dec x x) as [_|ne]; [now apply IH | now elim ne].
Qed.

Lemma contains_before_nonascii (w s d : string) :
  isascii w = true -> forall_chars (fun c => negb (is_ascii_char c)) d = true ->
  contains w (s ++ d) = true -> contains w s = true.
Proof.
  intros Hw Hd. induction s as [|x s IH]; intros Hc.
  - cbn [append] in Hc. induction d as [|e d IHd]; [exact Hc|].
    cbn [forall_chars] in Hd. apply andb_true_iff in Hd as [He Hd].
    apply IHd; [exact Hd|]. apply (contains_behead w e); [exact Hw | | exact Hc].
    now destruct (is_ascii_char e).
  - cbn [append contains] in Hc |- *. apply orb_true_iff in Hc as [Hp|Hc].
    + change (String x (s ++ d)) with (String x s ++ d) in Hp.
      now rewrite (prefix_before_nonascii _ _ _ Hw Hd Hp).
    + rewrite (IH Hc). apply orb_true_r.
Qed.

Lemma lower_step_plain (c : ascii) (t : string) :
  Ascii.eqb c (byte 226) = false -> Ascii.eqb c (byte 196) = false ->
  lower_step c t = String (lower_char c) t.
Proof. intros E1 E2. unfold lower_step. now rewrite E1, E2. Qed.

Lemma lower_step_E2 (t : string) :
  lower_step (byte 226) t =
  match t with
  | String d (String e r) =>
      if Ascii.eqb d (byte 132) && Ascii.eqb e (byte 170)
      then String "k" r else String (byte 226) t
  | _ => String (byte 226) t
  end.
Proof. reflexivity. Qed.

Lemma lower_step_C4 (t : string) :
  lower_step (byte 196) t =
  match t with
  | String d r =>
      if Ascii.eqb d (byte 176)
      then String "i" (String (byte 204) (String (byte 135) r))
      else String (byte 196) t
  | EmptyString => String (byte 196) t
  end.
Proof. reflexivity. Qed.

Lemma dangling_head (d t : string) :
  dangling d -> d <> EmptyString -> starts_dangling (lower_onto d t).
Proof.
  intros Hd Hne. unfold starts_dangling.
  destruct Hd; [now elim Hne| | |]; cbn [lower_onto].
  - rewrite lower_step_E2. destruct t as [|x [|y r]]; try (do 2 eexists; split; [reflexivity|auto]).
    destruct (_ && _); do 2 eexists; (split; [reflexivity|auto]).
  - rewrite (lower_step_plain (byte 132)) by reflexivity. rewrite lower_step_E2.
    destruct t as [|x r]; try (do 2 eexists; split; [reflexivity|auto]).
    destruct (_ && _); do 2 eexists; (split; [reflexivity|auto]).
  - rewrite lower_step_C4.
    destruct t as [|x r]; try (do 2 eexists; split; [reflexivity|auto]).
    destruct (Ascii.eqb x _); do 2 eexists; (split; [reflexivity|auto 6]).
Qed.

(** In front of it no special sequence is completed. *)
Lemma lower_step_before_dangling (c : ascii) (s : string) :
  starts_dangling s -> lower_step c s = String (lower_char c) s.
Proof.
  intros (y & r & -> & Hy). unfold lower_step.
  destruct (Ascii.eqb_spec c (byte 226)) as [->|_].
  - destruct r as [|e r]; [reflexivity|].
    replace (Ascii.eqb y (byte 132)) with false; [reflexivity|].
    destruct Hy as [->|[->|[->| ->]]]; reflexivity.
  - destruct (Ascii.eqb_spec c (byte 196)) as [->|_]; [|reflexivity].
    replace (Ascii.eqb y (byte 176)) with false; [reflexivity|].
    destruct Hy as [->|[->|[->| ->]]]; reflexivity.
Qed.

Lemma lower_step_84_dangling (s : string) :
  starts_dangling s ->
  lower_step (byte 226) (String (byte 132) s) = String (byte 226) (String (byte 132) s).
Proof.
  intros (y & r & -> & Hy). rewrite lower_step_E2.
  replace (Ascii.eqb y (byte 170)) with false; [now rewrite andb_false_r|].
  destruct Hy as [->|[->|[->| ->]]]; reflexivity.
Qed.

(** The lower case of a text in front of any other text: a part that
    does not depend on what follows, and at most the dangling start of
    one of the two special characters. *)
Lemma lower_onto_split (q : string) :
  exists core d,
    dangling d /\ forall t, lower_onto q t = core ++ lower_onto d t.
Proof.
  induction q as [|c q (core & d & Hd & IH)].
  - exists EmptyString, EmptyString. split; [constructor | reflexivity].
  - destruct core as [|x core].
    + destruct (string_dec d EmptyString) as [->|Hne].
      * destruct (Ascii.eqb_spec c (byte 226)) as [->|N1].
        { exists EmptyString, (String (byte 226) EmptyString). split; [constructor|].
          intros t. cbn [lower_onto append]. now rewrite IH. }
        destruct (Ascii.eqb_spec c (byte 196)) as [->|N2].
        { exists EmptyString, (String (byte 196) EmptyString). split; [constructor|].
          intros t. cbn [lower_onto append]. now rewrite IH. }
        exists (String (lower_char c) EmptyString), EmptyString. split; [constructor|].
        intros t. cbn [lower_onto append]. rewrite IH. cbn [lower_onto append].
        apply lower_step_plain; now apply Ascii.eqb_neq.
      * exists (String (lower_char c) EmptyString), d. split; [exact Hd|].
        intros t. cbn [lower_onto append]. rewrite IH. cbn [append].
        apply lower_step_before_dangling. now apply dangling_head.
    + destruct (Ascii.eqb_spec c (byte 226)) as [->|N1].
      { (* E2 in front of x *)
        destruct (Ascii.eqb_spec x (byte 132)) as [->|Nx].
        - destruct core as [|y core].
          + destruct (string_dec d EmptyString) as [->|Hne].
            * exists EmptyString, (String (byte 226) (String (byte 132) EmptyString)).
              split; [constructor|]. intros t. cbn [lower_onto append]. rewrite IH.
              cbn [lower_onto append]. now rewrite (lower_step_plain (byte 132)) by reflexivity.
            * exists (String (byte 226) (String (byte 132) EmptyString)), d.
              split; [exact Hd|]. intros t. cbn [lower_onto append]. rewrite IH.
              cbn [append]. apply lower_step_84_dangling. now apply dangling_head.
          + destruct (Ascii.eqb_spec y (byte 170)) as [->|Ny].
            * exists (String "k" core), d. split; [exact Hd|].
              intros t. cbn [lower_onto]. rewrite IH. reflexivity.
            * exists (String (byte 226) (String (byte 132) (String y core))), d.
              split; [exact Hd|]. intros t. cbn [lower_onto]. rewrite IH.
              cbn [append]. rewrite lower_step_E2.
              apply Ascii.eqb_neq in Ny. now rewrite Ny, andb_false_r.
        - exists (String (byte 226) (String x core)), d. split; [exact Hd|].
          intros t. cbn [lower_onto]. rewrite IH. cbn [append]. rewrite lower_step_E2.
          apply Ascii.eqb_neq in Nx. rewrite Nx.
          destruct (core ++ lower_onto d t); reflexivity. }
      destruct (Ascii.eqb_spec c (byte 196)) as [->|N2].
      { destruct (Ascii.eqb_spec x (byte 176)) as [->|Nx].
        - exists (String "i" (String (byte 204) (String (byte 135) core))), d.
          split; [exact Hd|]. intros t. cbn [lower_onto]. rewrite IH. reflexivity.
        - exists (String (byte 196) (String x core)), d. split; [exact Hd|].
          intros t. cbn [lower_onto]. rewrite IH. cbn [append]. rewrite lower_step_C4.
          apply Ascii.eqb_neq in Nx. now rewrite Nx. }
      exists (String (lower_char c) (String x core)), d. split; [exact Hd|].
      intros t. cbn [lower_onto]. rewrite IH.
      apply lower_step_plain; now apply Ascii.eqb_neq.
Qed.

Lemma dangling_not_ascii (d : string) :
  dangling d ->
  lower_onto d EmptyString = d /\
  forall_chars (fun c => negb (is_ascii_char c)) d = true.
Proof. intros Hd. destruct Hd; split; reflexivity. Qed.

Lemma prefix_append_left (w s t : string) :
  prefix w s = true -> prefix w (s ++ t) = true.
Proof.
  revert s. induction w as [|y w IHw]; intros s Hp; [apply prefix_empty|].
  destruct s as [|z s]; [discriminate Hp|].
  apply prefix_head in Hp as [-> Hp]. cbn [append prefix].
  destruct (ascii_dec z z) as [_|ne]; [now apply IHw | now elim ne].
Qed.

Lemma contains_append_left (w s t : string) :
  contains w s = true -> contains w (s ++ t) = true.
Proof.
  induction s as [|x s IH]; cbn [contains]; intros Hc.
  - rewrite orb_false_r in Hc. destruct w as [|y w]; [apply contains_empty | discriminate Hc].
  - apply orb_true_iff in Hc as [Hp|Hc].
    + cbn [append contains].
      change (String x (s ++ t)) with (String x s ++ t).
      now rewrite (prefix_append_left _ _ t Hp).
    + cbn [append]. apply contains_cons. now apply IH.
Qed.

(** Text around a query keeps the ASCII words found in its lower case. *)
Lemma contains_lower_extend (w before query after : string) :
  isascii w = true ->
  contains w (lower query) = true ->
  contains w (lower (before ++ query ++ after)) = true.
Proof.
  intros Hw Hc.
  rewrite <- lower_onto_empty, !lower_onto_append.
  apply lower_onto_keeps; [exact Hw|].
  destruct (lower_onto_split query) as (core & d & Hd & E).
  rewrite <- lower_onto_empty, E in Hc. rewrite E.
  destruct (dangling_not_ascii d Hd) as [Ed Hna]. rewrite Ed in Hc.
  apply contains_append_left. exact (contains_before_nonascii _ _ _ Hw Hna Hc).
Qed.

(** The two characters outside ASCII, and the white space outside
    ASCII, as Python has them. *)
Example lower_kelvin_sign : lower "www.NHS.uK" = "www.nhs.uk".
Proof. reflexivity. Qed.

Example lower_capital_i_with_dot : lower "İstanbul" = "i̇stanbul".
Proof. reflexivity. Qed.

Example strip_no_break_space : strip " Drink water.  " = "Drink water.".
Proof. reflexivity. Qed.

Example strip_keeps_inner_space : strip "　a b　" = "a b".
Proof. reflexivity. Qed.

Lemma prefix_self (w : string) : prefix w w = true.
Proof.
  induction w as [|c w IH]; cbn [prefix]; [reflexivity|].
  destruct (ascii_dec c c) as [_|ne]; [exact IH | now elim ne].
Qed.

(** Lower-casing keeps an occurrence of an ASCII word that is already in
    lower case. *)
Lemma contains_lower (w s : string) :
  isascii w = true -> lower w = w ->
  contains w s = true -> contains w (lower s) = true.
Proof.
  intros Ha Hw H. destruct (contains_split _ _ H) as (a & b & ->).
  apply contains_lower_extend; [exact Ha|].
  rewrite Hw. apply prefix_contains, prefix_self.
Qed.

(** ** Trust score *)

Section TrustScore.
Context `{Urllib.Internals}.

Lemma compute_trust_score_cascade (link snippet : string) :
  compute_trust_score link snippet =
  (netloc <- Urllib.urlparse_netloc link ;;
   let domain := lower netloc in
   let base : Q :=
     if top_tier domain then 5
     else if generic_tier domain then 4.5
     else if consumer_tier domain then 4
     else if literature_tier domain then 3.5
     else 3 in
   Return (Qmin (if recent snippet then base + 0.5 else base) 5.0)).
Proof. reflexivity. Qed.

Lemma compute_trust_score_raises (link snippet : string) (e : Exn) :
  Urllib.urlparse_netloc link = Raise e -> compute_trust_score link snippet = Raise e.
Proof. intros E. unfold compute_trust_score. now rewrite E. Qed.

Lemma compute_trust_score_range (link snippet : string) (v : Q) :
  compute_trust_score link snippet = Return v -> 3 <= v /\ v <= 5.
Proof.
  rewrite compute_trust_score_cascade.
  destruct (Urllib.urlparse_netloc link) as [netloc|e]; cbn [bind]; [|discriminate].
  intros E; injection E as <-.
  destruct (top_tier (lower netloc)), (generic_tier (lower netloc)),
    (consumer_tier (lower netloc)), (literature_tier (lower netloc)),
    (recent snippet); split; vm_compute; discriminate.
Qed.

End TrustScore.

(** Every link whose authority has an opening bracket and no closing one
    makes [urlparse], and so [compute_trust_score], raise, whatever the
    unmodelled validators answer. *)
Lemma unbalanced_bracket_raises `{Urllib.Internals} (snippet : string) :
  compute_trust_score "http://[" snippet = Raise ValueError.
Proof. reflexivity. Qed.

(** C1, amended.  On every link from which [urlparse] extracts a host
    (it does not raise), and for every snippet, [compute_trust_score]
    returns a value [v] with [1 <= v <= 5]; a link without authority has
    the empty host and is scored like any other. *)
Theorem trust_score_in_range `{Urllib.Internals} (link snippet netloc : string) :
  Urllib.urlparse_netloc link = Return netloc ->
  exists v, compute_trust_score link snippet = Return v /\ 1 <= v /\ v <= 5.
Proof.
  intros E.
  destruct (compute_trust_score link snippet) as [v|e] eqn:S.
  - exists v. destruct (compute_trust_score_range _ _ _ S) as [lo hi].
    split; [reflexivity | split; [| exact hi]].
    apply Qle_trans with (y := 3); [vm_compute; discriminate | exact lo].
  - unfold compute_trust_score in S. rewrite E in S. discriminate.
Qed.

(** C1, witness: a malformed link, whose host is empty. *)
Lemma trust_score_in_range_witness :
  @Urllib.urlparse_netloc Urllib.lenient "not a url" = Return EmptyString /\
  exists v, @compute_trust_score Urllib.lenient "not a url" "seen in 2023" = Return v
            /\ 1 <= v /\ v <= 5.
Proof.
  split; [reflexivity|].
  exact (@trust_score_in_range Urllib.lenient "not a url" "seen in 2023" EmptyString eq_refl).
Defined.

(** C1 as stated fails: on this link no value is returned. *)
Lemma trust_score_raises_on_open_bracket :
  @compute_trust_score Urllib.lenient "http://[" "seen in 2023" = Raise ValueError.
Proof. reflexivity. Qed.

(** C2.  With the snippet fixed, a link whose host is in the top tier
    scores at least as much as a link whose host is in the generic
    government/education tier, which scores at least as much as a link
    whose host matches no tier. *)
Theorem tier_monotonicity `{Urllib.Internals}
    (top generic other snippet d1 d2 d3 : string) :
  Urllib.urlparse_netloc top = Return d1 ->
  Urllib.urlparse_netloc generic = Return d2 ->
  Urllib.urlparse_netloc other = Return d3 ->
  top_tier (lower d1) = true ->
  top_tier (lower d2) = false -> generic_tier (lower d2) = true ->
  top_tier (lower d3) = false -> generic_tier (lower d3) = false ->
  consumer_tier (lower d3) = false -> literature_tier (lower d3) = false ->
  exists v1 v2 v3,
    compute_trust_score top snippet = Return v1 /\
    compute_trust_score generic snippet = Return v2 /\
    compute_trust_score other snippet = Return v3 /\
    v3 <= v2 /\ v2 <= v1.
Proof.
  intros E1 E2 E3 T1 T2 G2 T3 G3 C3 L3.
  rewrite !compute_trust_score_cascade, E1, E2, E3. cbn [bind].
  rewrite T1, T2, G2, T3, G3, C3, L3. cbv zeta.
  do 3 eexists. split; [reflexivity | split; [reflexivity | split; [reflexivity |]]].
  destruct (recent snippet); split; vm_compute; discriminate.
Qed.

(** C2, witness. *)
Lemma tier_monotonicity_witness :
  exists v1 v2 v3,
    @compute_trust_score Urllib.lenient "https://www.nhs.uk/conditions/" "2023" = Return v1 /\
    @compute_trust_score Urllib.lenient "https://www.nih.gov/health" "2023" = Return v2 /\
    @compute_trust_score Urllib.lenient "https://example.com/blog" "2023" = Return v3 /\
    v3 <= v2 /\ v2 <= v1.
Proof.
  exact (@tier_monotonicity Urllib.lenient
           "https://www.nhs.uk/conditions/" "https://www.nih.gov/health"
           "https://example.com/blog" "2023" "www.nhs.uk" "www.nih.gov" "example.com"
           eq_refl eq_refl eq_refl eq_refl eq_refl eq_refl eq_refl eq_refl eq_refl eq_refl).
Defined.

(** ** Severity *)

Lemma severity_keywords_lower (level w : string) (ws : list string) :
  In (level, ws) SEVERITY_KEYWORDS -> In w ws -> isascii w = true /\ lower w = w.
Proof.
  intros Ht Hw. unfold SEVERITY_KEYWORDS in Ht. cbn [In] in Ht.
  destruct Ht as [Ht|[Ht|[Ht|[]]]]; injection Ht as _ <-; cbn [In] in Hw;
    repeat (destruct Hw as [<-|Hw]; [split; reflexivity|]); destruct Hw.
Qed.

(** A query with an Immediate keyword in it, in any letter case, is
    Immediate. *)
Lemma immediate_keyword_wins (query w : string) (ws : list string) :
  In (IMMEDIATE, ws) SEVERITY_KEYWORDS -> In w ws ->
  contains w (lower query) = true ->
  classify_severity query = IMMEDIATE.
Proof.
  intros Ht Hw Hc.
  assert (ws = ["chest pain"; "vision loss"; "stroke"; "aneurysm"; "severe headache"])
    as ->.
  { unfold SEVERITY_KEYWORDS in Ht. cbn [In] in Ht.
    destruct Ht as [Ht|[Ht|[Ht|[]]]]; try discriminate. now injection Ht as <-. }
  unfold classify_severity, SEVERITY_KEYWORDS. cbn [find].
  replace (existsb _ _) with true; [reflexivity|].
  symmetry. apply existsb_exists. exists w. split; assumption.
Qed.

(** C3.  [classify_severity] returns, for every query, one of the three
    levels, which are distinct; the empty query is Routine. *)
Theorem classify_severity_total (query : string) :
  (classify_severity query = IMMEDIATE \/
   classify_severity query = URGENT \/
   classify_severity query = ROUTINE) /\
  (IMMEDIATE <> URGENT /\ IMMEDIATE <> ROUTINE /\ URGENT <> ROUTINE) /\
  classify_severity EmptyString = ROUTINE.
Proof.
  split; [|split; [repeat split; discriminate | reflexivity]].
  unfold classify_severity, SEVERITY_KEYWORDS. cbn [find].
  destruct (existsb _ _); [now left|].
  destruct (existsb _ _); [now right; left|].
  cbn [existsb]. now right; right.
Qed.

(** C4.  A query that contains an Immediate keyword and an Urgent
    keyword, each as it is written in the table or in another letter
    case, is classified Immediate. *)
Theorem immediate_before_urgent (query wi wu : string) (immediate urgent : list string) :
  In (IMMEDIATE, immediate) SEVERITY_KEYWORDS -> In wi immediate ->
  In (URGENT, urgent) SEVERITY_KEYWORDS -> In wu urgent ->
  contains wi query = true \/ contains wi (lower query) = true ->
  contains wu query = true \/ contains wu (lower query) = true ->
  classify_severity query = IMMEDIATE.
Proof.
  intros Hi Hwi _ _ Hc _.
  apply immediate_keyword_wins with (w := wi) (ws := immediate); try assumption.
  destruct Hc as [Hc|Hc]; [|exact Hc].
  destruct (severity_keywords_lower _ _ _ Hi Hwi) as [Ha Hl].
  now apply contains_lower.
Qed.

(** C4, witness: the query of the specification, with capitals. *)
Lemma immediate_before_urgent_witness :
  classify_severity "I have Chest Pain and high fever" = IMMEDIATE.
Proof.
  apply (immediate_before_urgent "I have Chest Pain and high fever"
           "chest pain" "high fever"
           ["chest pain"; "vision loss"; "stroke"; "aneurysm"; "severe headache"]
           ["high fever"; "severe pain"; "vomiting"; "sudden dizziness"]).
  - left; reflexivity.
  - left; reflexivity.
  - right; left; reflexivity.
  - left; reflexivity.
  - right; reflexivity.
  - left; reflexivity.
Defined.

(** ** Stable sort on a key with two values *)

Section SortTwoKeys.
Context {A : Type} (sort_key : A -> Z).

Lemma insert_sorted_length (x : A) (l : list A) :
  length (insert_sorted sort_key x l) = S (length l).
Proof.
  induction l as [|y l IH]; cbn [insert_sorted]; [reflexivity|].
  destruct (sort_key x <=? sort_key y)%Z; cbn [length]; [reflexivity | now rewrite IH].
Qed.

Lemma sort_length (l : list A) : length (sort sort_key l) = length l.
Proof.
  induction l as [|x l IH]; cbn [sort fold_right]; [reflexivity|].
  fold (sort sort_key l). now rewrite insert_sorted_length, IH.
Qed.

(** An element goes past the elements with a smaller key and stops in
    front of the first one whose key is not smaller. *)
Lemma insert_sorted_between (x : A) (smaller rest : list A) :
  Forall (fun y => (sort_key y < sort_key x)%Z) smaller ->
  Forall (fun y => (sort_key x <= sort_key y)%Z) rest ->
  insert_sorted sort_key x (smaller ++ rest) = (smaller ++ x :: rest)%list.
Proof.
  intros Hs Hr. induction Hs as [|y smaller Hy _ IH]; cbn [app insert_sorted].
  - destruct Hr as [|z rest Hz _]; cbn [insert_sorted]; [reflexivity|].
    destruct (Z.leb_spec (sort_key x) (sort_key z)); [reflexivity | lia].
  - destruct (Z.leb_spec (sort_key x) (sort_key y)); [lia | now rewrite IH].
Qed.

Hypothesis two_keys : forall x, sort_key x = 0%Z \/ sort_key x = 1%Z.

Lemma sort_two_keys (l : list A) :
  sort sort_key l =
  (filter (fun x => (sort_key x =? 0)%Z) l ++ filter (fun x => (sort_key x =? 1)%Z) l)%list.
Proof.
  induction l as [|x l IH]; [reflexivity|].
  cbn [sort fold_right filter]. fold (sort sort_key l). rewrite IH.
  destruct (two_keys x) as [E|E]; rewrite E; cbn [Z.eqb app].
  - apply (insert_sorted_between x []); [constructor|].
    apply Forall_forall. intros y _. destruct (two_keys y); lia.
  - apply insert_sorted_between; apply Forall_forall; intros y Hy;
      apply filter_In in Hy as [_ Hy]; lia.
Qed.

End SortTwoKeys.

Lemma nhs_first_two_keys (x : Item) : nhs_first x = 0%Z \/ nhs_first x = 1%Z.
Proof. unfold nhs_first. destruct (contains _ _); auto. Qed.

Lemma filter_all {A : Type} (p : A -> bool) (l : list A) :
  Forall (fun x => p x = true) l -> filter p l = l.
Proof. induction 1 as [|x l Hx _ IH]; cbn [filter]; [|rewrite Hx, IH]; reflexivity. Qed.

Lemma filter_none {A : Type} (p : A -> bool) (l : list A) :
  Forall (fun x => p x = false) l -> filter p l = [].
Proof. induction 1 as [|x l Hx _ IH]; cbn [filter]; [|rewrite Hx, IH]; reflexivity. Qed.

(** The sort of [get_medical_snippets] moves the one item from nhs.uk to
    the front and keeps the others as they were. *)
Lemma sort_nhs_first (before after : list Item) (x : Item) :
  contains "nhs.uk" (get x "link" EmptyString) = true ->
  Forall (fun y => contains "nhs.uk" (get y "link" EmptyString) = false) (before ++ after) ->
  sort nhs_first (before ++ x :: after) = x :: (before ++ after)%list.
Proof.
  intros Hx Hothers.
  assert (K0 : Forall (fun y => (nhs_first y =? 0)%Z = false) (before ++ after)).
  { eapply Forall_impl; [|exact Hothers]. cbv beta. intros y Hy.
    unfold nhs_first. now rewrite Hy. }
  assert (K1 : Forall (fun y => (nhs_first y =? 1)%Z = true) (before ++ after)).
  { eapply Forall_impl; [|exact Hothers]. cbv beta. intros y Hy.
    unfold nhs_first. now rewrite Hy. }
  assert (Kx : nhs_first x = 0%Z) by (unfold nhs_first; now rewrite Hx).
  apply Forall_app in K0 as [K0b K0a]. apply Forall_app in K1 as [K1b K1a].
  rewrite (sort_two_keys nhs_first nhs_first_two_keys), !filter_app.
  cbn [filter]. rewrite Kx. cbn [Z.eqb].
  rewrite (filter_none _ _ K0b), (filter_none _ _ K0a).
  rewrite (filter_all _ _ K1b), (filter_all _ _ K1a). reflexivity.
Qed.

(** ** Medical search *)

Section Medical.
Context `{Urllib.Internals}.

Lemma medical_loop_records (items : list Item) (records results : list SourceRecord) :
  Forall2 (fun item record => medical_record item = Return record) items records ->
  medical_loop items results = Return (results ++ records)%list.
Proof.
  intros F. revert results.
  induction F as [|item record items records E _ IH]; intros results; cbn [medical_loop].
  - now rewrite app_nil_r.
  - rewrite E. cbn [bind]. rewrite IH, <- app_assoc. reflexivity.
Qed.

Lemma medical_loop_length (items : list Item) (results out : list SourceRecord) :
  medical_loop items results = Return out ->
  length out = (length results + length items)%nat.
Proof.
  revert results. induction items as [|item items IH]; intros results; cbn [medical_loop].
  - intros E; injection E as <-. cbn [length]. lia.
  - destruct (medical_record item) as [record|e]; cbn [bind]; [|discriminate].
    intros E. rewrite (IH _ E), length_app. cbn [length]. lia.
Qed.

Lemma get_medical_snippets_calls (w : World) (query : string) (n : Z) :
  snd (get_medical_snippets w query n) = [SearchCall SEARCH_URL (medical_params w query n)].
Proof. reflexivity. Qed.

Lemma get_medical_snippets_length (w : World) (query : string) (n : Z) :
  (length (fst (get_medical_snippets w query n))
   <= length (response_items (requests_get w SEARCH_URL (medical_params w query n))))%nat.
Proof.
  unfold get_medical_snippets, response_items. cbn [fst].
  destruct (requests_get w SEARCH_URL (medical_params w query n)) as [response|e];
    cbn [bind length]; [|lia].
  destruct (raise_for_status response); cbn [bind length]; [|lia].
  unfold json. destruct (body response) as [|[items|]]; cbn [bind get_items].
  - cbn [length]. lia.
  - destruct (medical_loop _ _) as [out|e] eqn:E; cbn [length]; [|lia].
    apply medical_loop_length in E. rewrite E, sort_length. cbn [length]. lia.
  - cbn [sort fold_right medical_loop length]. lia.
Qed.

End Medical.

(** C7, amended.  When the search call returns a response that is
    processed without an exception (its status is not an error status,
    every item has a title, a link with an authority [urlparse] accepts,
    and a snippet) and exactly one item's link contains nhs.uk, then
    [get_medical_snippets] returns the record of that item first and
    after it the records of the other items in the order of the response. *)
Theorem nhs_item_first `{Urllib.Internals}
    (w : World) (query : string) (n : Z) (response : Response)
    (before after : list Item) (x : Item) (records : list SourceRecord) :
  requests_get w SEARCH_URL (medical_params w query n) = Return response ->
  raise_for_status response = Return tt ->
  json response = Return (Some (before ++ x :: after)%list) ->
  contains "nhs.uk" (get x "link" EmptyString) = true ->
  Forall (fun y => contains "nhs.uk" (get y "link" EmptyString) = false) (before ++ after) ->
  Forall2 (fun item record => medical_record item = Return record)
          (x :: before ++ after) records ->
  fst (get_medical_snippets w query n) = records.
Proof.
  intros Eget Estatus Ejson Hx Hothers Hrecords.
  unfold get_medical_snippets. cbn [fst].
  rewrite Eget. cbn [bind]. rewrite Estatus. cbn [bind]. rewrite Ejson. cbn [bind get_items].
  rewrite (sort_nhs_first _ _ _ Hx Hothers).
  rewrite (medical_loop_records _ _ [] Hrecords). reflexivity.
Qed.

(** C7, witness: the item from nhs.uk is second in the response and
    first in the result. *)
Lemma nhs_item_first_witness :
  fst (@get_medical_snippets Urllib.lenient
         (Sample.world (fun _ => Sample.ok [Sample.blog; Sample.nhs; Sample.nih]) Sample.answer)
         "sore throat" 5)
  = [ ("NHS", "https://www.nhs.uk/conditions/", "Reviewed in 2023", Qmin (5 + 0.5) 5.0);
      ("Blog", "https://example.com/blog", "My story", Qmin 3 5.0);
      ("NIH", "https://www.nih.gov/health", "Overview", Qmin 4.5 5.0) ].
Proof.
  apply (@nhs_item_first Urllib.lenient _ "sore throat" 5%Z
           {| status_code := 200;
              body := JsonObject (Some [Sample.blog; Sample.nhs; Sample.nih]) |}
           [Sample.blog] [Sample.nih] Sample.nhs).
  - reflexivity.
  - reflexivity.
  - reflexivity.
  - reflexivity.
  - repeat constructor.
  - repeat constructor.
Defined.

(** C7 as stated fails: one item has no snippet, the loop raises
    [KeyError] and the whole result is empty, so the one item from nhs.uk
    is not in it. *)
Lemma nhs_item_lost :
  fst (@get_medical_snippets Urllib.lenient
         (Sample.world (fun _ => Sample.ok [Sample.bare; Sample.nhs]) Sample.answer)
         "sore throat" 5)
  = [].
Proof. reflexivity. Qed.

(** ** Answering *)

Lemma append_empty_r (s : string) : s ++ EmptyString = s.
Proof. induction s as [|c s IH]; cbn [append]; [reflexivity | now rewrite IH]. Qed.

(** C5.  When the medical search returns no record,
    [answer_medical_question] returns the fallback message with an empty
    source list, and makes no call to the completion model. *)
Theorem no_sources_short_circuit `{Urllib.Internals} (w : World) (question : string) :
  fst (get_medical_snippets w question 5) = [] ->
  fst (answer_medical_question w question)
    = ("Sorry, no reliable sources available now.", []) /\
  existsb is_completion_call (snd (answer_medical_question w question)) = false.
Proof.
  intros E. unfold answer_medical_question.
  pose proof (get_medical_snippets_calls w question 5) as C.
  destruct (get_medical_snippets w question 5) as [snippets calls].
  cbn [fst snd] in E, C. subst snippets calls. split; reflexivity.
Qed.

(** C5, witness: the search endpoint cannot be reached. *)
Lemma no_sources_short_circuit_witness :
  fst (@answer_medical_question Urllib.lenient
         (Sample.world (fun _ => Raise ConnectionError) Sample.answer) "sore throat")
    = ("Sorry, no reliable sources available now.", []) /\
  existsb is_completion_call
    (snd (@answer_medical_question Urllib.lenient
            (Sample.world (fun _ => Raise ConnectionError) Sample.answer) "sore throat"))
    = false.
Proof.
  exact (@no_sources_short_circuit Urllib.lenient
           (Sample.world (fun _ => Raise ConnectionError) Sample.answer) "sore throat"
           eq_refl).
Defined.

Lemma answer_sources (snippets : list SourceRecord) :
  map (fun '(title, link, snippet, score) => (title, link, snippet, score)) snippets
  = snippets.
Proof.
  induction snippets as [|[[[title link] snippet] score] l IH]; cbn [map];
    [reflexivity | now rewrite IH].
Qed.

(** C6, amended.  [answer_medical_question] asks the search service for
    5 results ([num = 5]) and returns at most as many sources as the
    response has items; it does not cut the list itself. *)
Theorem sources_bounded_by_response `{Urllib.Internals} (w : World) (question : string) :
  (exists calls,
     snd (answer_medical_question w question)
     = SearchCall SEARCH_URL (medical_params w question 5) :: calls) /\
  num (medical_params w question 5) = 5%Z /\
  (length (snd (fst (answer_medical_question w question)))
   <= length (response_items (requests_get w SEARCH_URL (medical_params w question 5))))%nat.
Proof.
  pose proof (get_medical_snippets_calls w question 5) as C.
  pose proof (get_medical_snippets_length w question 5) as L.
  unfold answer_medical_question.
  destruct (get_medical_snippets w question 5) as [snippets calls].
  cbn [fst snd] in C, L. subst calls.
  destruct snippets as [|record snippets].
  - split; [now exists [] | split; [reflexivity | cbn [fst snd length]; lia]].
  - split; [eexists; reflexivity | split; [reflexivity|]].
    destruct (chat_completions_create w MODEL _); cbn [fst snd].
    + cbn [length]. lia.
    + rewrite answer_sources. exact L.
Qed.

(** C6 as stated fails: a response with six items gives six sources. *)
Lemma six_items_six_sources :
  length (snd (fst (@answer_medical_question Urllib.lenient
     (Sample.world
        (fun _ => Sample.ok [Sample.nhs; Sample.nih; Sample.blog;
                             Sample.reddit; Sample.forum; Sample.nih])
        Sample.answer)
     "sore throat")))
  = 6%nat.
Proof. reflexivity. Qed.

(** C10.  When the call to the completion model raises,
    [answer_medical_question] returns the error text, which ends with
    [str(e)], and an empty source list: the records the search had found
    are not returned. *)
Theorem completion_error_drops_sources `{Urllib.Internals}
    (w : World) (question model prompt cause : string) :
  In (CompletionCall model prompt) (snd (answer_medical_question w question)) ->
  chat_completions_create w model prompt = CompletionRaises cause ->
  fst (answer_medical_question w question) = ("OpenAI API Error: " ++ cause, []) /\
  contains cause (fst (fst (answer_medical_question w question))) = true /\
  fst (get_medical_snippets w question 5) <> [].
Proof.
  pose proof (get_medical_snippets_calls w question 5) as C.
  unfold answer_medical_question.
  destruct (get_medical_snippets w question 5) as [snippets calls].
  cbn [fst snd] in C |- *. subst calls.
  destruct snippets as [|record snippets]; cbv beta iota zeta.
  - cbn [snd In]. intros [Hin|[]]. discriminate.
  - set (sent := answer_prompt _ question). cbn [snd app In].
    intros [Hin|[Hin|[]]] Hchat; [discriminate|].
    injection Hin as Em Ep. subst model prompt. rewrite Hchat. cbn [fst].
    split; [reflexivity | split; [|discriminate]].
    rewrite <- (append_empty_r cause) at 2. apply contains_append.
Qed.

(** C10, witness: the search finds three records and the model call
    fails. *)
Lemma completion_error_drops_sources_witness :
  fst (@answer_medical_question Urllib.lenient
         (Sample.world (fun _ => Sample.ok [Sample.blog; Sample.nhs; Sample.nih])
                       (CompletionRaises "Connection error."))
         "sore throat")
  = ("OpenAI API Error: Connection error.", []).
Proof.
  refine (proj1 (@completion_error_drops_sources Urllib.lenient
           (Sample.world (fun _ => Sample.ok [Sample.blog; Sample.nhs; Sample.nih])
                         (CompletionRaises "Connection error."))
           "sore throat" MODEL _ "Connection error." _ eq_refl)).
  right; left; reflexivity.
Defined.

(** ** Social media search *)

Section Social.
Context `{Urllib.Internals}.

Lemma social_loop_records (items : list Item) (records snippets : list SourceRecord) :
  Forall2 (fun item record => social_record item = Return record) items records ->
  social_loop items snippets = ((snippets ++ records)%list, Return tt).
Proof.
  intros F. revert snippets.
  induction F as [|item record items records E _ IH]; intros snippets; cbn [social_loop].
  - now rewrite app_nil_r.
  - rewrite E, IH, <- app_assoc. reflexivity.
Qed.

(** A property of the records that holds of the list on entry and of
    every record the loop body builds holds of the list on exit. *)
Lemma social_loop_invariant (P : SourceRecord -> Prop) (items : list Item)
    (snippets : list SourceRecord) :
  (forall item record, social_record item = Return record -> P record) ->
  Forall P snippets -> Forall P (fst (social_loop items snippets)).
Proof.
  intros Hbody. revert snippets.
  induction items as [|item items IH]; intros snippets Hs; cbn [social_loop].
  - exact Hs.
  - destruct (social_record item) as [record|e] eqn:E; [|exact Hs].
    apply IH, Forall_app. split; [exact Hs|]. constructor; [|constructor].
    exact (Hbody _ _ E).
Qed.

Lemma social_site_invariant (P : SourceRecord -> Prop) (w : World) (query site : string)
    (n : Z) (snippets : list SourceRecord) :
  (forall item record, social_record item = Return record -> P record) ->
  Forall P snippets -> Forall P (social_site w query n snippets site).
Proof.
  intros Hbody Hs. unfold social_site.
  destruct (bind _ _) as [items|e]; [|exact Hs].
  now apply social_loop_invariant.
Qed.

(** A failed search call leaves the list as it was. *)
Lemma social_site_failure (w : World) (query site : string) (n : Z)
    (snippets : list SourceRecord) :
  search_fails (requests_get w SEARCH_URL (social_params w query site n)) ->
  social_site w query n snippets site = snippets.
Proof.
  intros F. unfold social_site.
  inversion F as [e E|response Hstatus E|response Hbody E]; cbn [bind].
  - reflexivity.
  - unfold raise_for_status.
    destruct (Z.leb_spec 400 (status_code response)); [|lia].
    destruct (Z.ltb_spec (status_code response) 600); [|lia].
    reflexivity.
  - destruct (raise_for_status response); cbn [bind]; [|reflexivity].
    unfold json. now rewrite Hbody.
Qed.

(** A search call that succeeds with well-formed items appends their
    records. *)
Lemma social_site_success (w : World) (query site : string) (n : Z)
    (snippets : list SourceRecord) (response : Response) (items : list Item)
    (records : list SourceRecord) :
  requests_get w SEARCH_URL (social_params w query site n) = Return response ->
  raise_for_status response = Return tt ->
  json response = Return (Some items) ->
  Forall2 (fun item record => social_record item = Return record) items records ->
  social_site w query n snippets site = (snippets ++ records)%list.
Proof.
  intros Eget Estatus Ejson F. unfold social_site.
  rewrite Eget. cbn [bind]. rewrite Estatus. cbn [bind]. rewrite Ejson. cbn [bind get_items].
  now rewrite (social_loop_records _ _ _ F).
Qed.

(** On a trust score, which is at least 3, the floor [max(score, 1.0)]
    after the penalty does nothing. *)
Lemma floor_is_idle (trust : Q) :
  3 <= trust -> Qmax (trust - 1) 1.0 = trust - 1 /\ 2 <= trust - 1.
Proof.
  intros lo.
  assert (G : 2 <= trust - 1).
  { setoid_replace 2 with (3 - 1) by reflexivity.
    apply Qplus_le_compat; [exact lo | apply Qle_refl]. }
  split; [|exact G].
  unfold Qmax, GenericMinMax.gmax.
  assert (L : 1.0 < trust - 1) by (eapply Qlt_le_trans; [|exact G]; reflexivity).
  apply Qgt_alt in L. now rewrite L.
Qed.

(** What the loop body appends: the trust score less one. *)
Lemma social_record_score (item : Item) (title link snippet : string) (score : Q) :
  social_record item = Return (title, link, snippet, score) ->
  exists trust,
    compute_trust_score link snippet = Return trust /\ score = trust - 1 /\ 2 <= score.
Proof.
  unfold social_record.
  destruct (getitem item "title") as [t|]; cbn [bind]; [|discriminate].
  destruct (getitem item "link") as [l|]; cbn [bind]; [|discriminate].
  destruct (getitem item "snippet") as [s|]; cbn [bind]; [|discriminate].
  destruct (compute_trust_score l s) as [trust|] eqn:E; cbn [bind]; [|discriminate].
  intros R. injection R as <- <- <- <-.
  destruct (compute_trust_score_range _ _ _ E) as [lo _].
  destruct (floor_is_idle _ lo) as [M G].
  exists trust. rewrite M. split; [exact E | split; [reflexivity | exact G]].
Qed.

End Social.

(** C9, amended.  On every link from which [urlparse] extracts a host
    (it does not raise), and for every snippet, [compute_trust_score]
    returns a value of at least 3; so the floor [max(score, 1.0)] of
    [get_social_snippets] leaves the penalised score as it is, and every
    record of the social search carries the trust score of its link and
    snippet less one, which is at least 2. *)
Theorem social_floor_never_applies `{Urllib.Internals}
    (w : World) (query : string) (n : Z) (link snippet host : string) :
  Urllib.urlparse_netloc link = Return host ->
  exists v,
    compute_trust_score link snippet = Return v /\
    3 <= v /\
    Qmax (v - 1) 1.0 = v - 1 /\
    Forall (fun '(_, l, s, score) =>
              exists trust,
                compute_trust_score l s = Return trust /\ score = trust - 1 /\ 2 <= score)
           (fst (get_social_snippets w query n)).
Proof.
  intros Ehost.
  destruct (compute_trust_score link snippet) as [v|e] eqn:E.
  - exists v. destruct (compute_trust_score_range _ _ _ E) as [lo _].
    split; [reflexivity | split; [exact lo | split; [exact (proj1 (floor_is_idle _ lo))|]]].
    unfold get_social_snippets, SOCIAL_MEDIA_SITES. cbn [fst fold_left].
    repeat apply social_site_invariant; try constructor;
      intros item [[[title l] s] score] R; exact (social_record_score _ _ _ _ _ R).
  - unfold compute_trust_score in E. rewrite Ehost in E. discriminate E.
Qed.

(** C9, witness: a thread on reddit.com scores 3, and 2 as a social
    result. *)
Lemma social_floor_never_applies_witness :
  exists v,
    @compute_trust_score Urllib.lenient "https://www.reddit.com/r/health" "What helped me"
    = Return v /\
    3 <= v /\
    Qmax (v - 1) 1.0 = v - 1 /\
    Forall (fun '(_, l, s, score) =>
              exists trust,
                @compute_trust_score Urllib.lenient l s = Return trust
                /\ score = trust - 1 /\ 2 <= score)
           (fst (@get_social_snippets Urllib.lenient
                   (Sample.world (fun _ => Sample.ok [Sample.reddit]) Sample.answer)
                   "sore throat" 5)).
Proof.
  exact (@social_floor_never_applies Urllib.lenient
           (Sample.world (fun _ => Sample.ok [Sample.reddit]) Sample.answer)
           "sore throat" 5%Z "https://www.reddit.com/r/health" "What helped me"
           "www.reddit.com" eq_refl).
Defined.

(** C9 as stated fails: on this link [urlparse] raises, whatever the
    validators answer, and no value, of 3 or more, is returned. *)
Lemma trust_score_raises_on_close_bracket :
  @compute_trust_score Urllib.lenient "http://]" "What helped me" = Raise ValueError.
Proof. reflexivity. Qed.

(** C8, amended.  When the search call for one of the two platforms
    fails (the transport raises, the status is a 4xx or 5xx one, or the
    body is no JSON object), that platform adds nothing, the call for the
    other platform is still made, and when that one succeeds with
    well-formed items, the result is exactly their records: not empty
    when the items are not. *)
Theorem social_failure_is_isolated `{Urllib.Internals}
    (w : World) (query failed other : string) (n : Z)
    (response : Response) (items : list Item) (records : list SourceRecord) :
  SOCIAL_MEDIA_SITES = [failed; other] \/ SOCIAL_MEDIA_SITES = [other; failed] ->
  search_fails (requests_get w SEARCH_URL (social_params w query failed n)) ->
  requests_get w SEARCH_URL (social_params w query other n) = Return response ->
  raise_for_status response = Return tt ->
  json response = Return (Some items) ->
  Forall2 (fun item record => social_record item = Return record) items records ->
  fst (get_social_snippets w query n) = records /\
  (items <> [] -> fst (get_social_snippets w query n) <> []) /\
  In (SearchCall SEARCH_URL (social_params w query other n))
     (snd (get_social_snippets w query n)).
Proof.
  intros Hsites Hfail Eget Estatus Ejson F.
  assert (R : fst (get_social_snippets w query n) = records).
  { unfold get_social_snippets. cbn [fst].
    destruct Hsites as [E|E]; rewrite E; cbn [fold_left].
    - rewrite (social_site_failure _ _ _ _ _ Hfail).
      now rewrite (social_site_success _ _ _ _ _ _ _ _ Eget Estatus Ejson F).
    - rewrite (social_site_failure _ _ _ _ _ Hfail).
      now rewrite (social_site_success _ _ _ _ _ _ _ _ Eget Estatus Ejson F). }
  split; [exact R | split].
  - rewrite R. intros Hitems ->. inversion F; subst. now apply Hitems.
  - unfold get_social_snippets. cbn [snd].
    destruct Hsites as [E|E]; rewrite E; cbn [map In]; auto.
Qed.

(** C8, witness: the call for reddit.com gets a 500 status, the call for
    healthunlocked.com one post. *)
Lemma social_failure_is_isolated_witness :
  fst (@get_social_snippets Urllib.lenient
         (Sample.world
            (fun params =>
               if contains "reddit" (q params)
               then Return {| status_code := 500; body := NotJson |}
               else Sample.ok [Sample.forum])
            Sample.answer)
         "sore throat" 5)
  = [("Post", "https://healthunlocked.com/post", "Ask your GP", Qmax (Qmin 3 5.0 - 1) 1.0)].
Proof.
  refine (proj1 (@social_failure_is_isolated Urllib.lenient _ "sore throat"
           "site:reddit.com" "site:healthunlocked.com" 5%Z
           {| status_code := 200; body := JsonObject (Some [Sample.forum]) |}
           [Sample.forum] _ _ _ _ _ _ _)).
  - left; reflexivity.
  - apply status_failure. cbn [status_code]. lia.
  - reflexivity.
  - reflexivity.
  - reflexivity.
  - repeat constructor.
Defined.

(** C8 as stated fails.  In the first world the call for reddit.com comes
    back with the status 304, which is not a 2xx status and for which
    [raise_for_status] does not raise: its thread is in the result.  In
    the second the second item of reddit.com has no snippet: the loop
    raises at it, and the thread appended before it stays in the result. *)
Lemma social_failure_leaves_results :
  fst (@get_social_snippets Urllib.lenient
         (Sample.world
            (fun params =>
               if contains "reddit" (q params)
               then Return {| status_code := 304;
                              body := JsonObject (Some [Sample.reddit]) |}
               else Sample.ok [Sample.forum])
            Sample.answer)
         "sore throat" 5)
  = [ ("Thread", "https://www.reddit.com/r/health", "What helped me", 2);
      ("Post", "https://healthunlocked.com/post", "Ask your GP", 2) ] /\
  fst (@get_social_snippets Urllib.lenient
         (Sample.world
            (fun params =>
               if contains "reddit" (q params)
               then Sample.ok [Sample.reddit; Sample.bare]
               else Sample.ok [Sample.forum])
            Sample.answer)
         "sore throat" 5)
  = [ ("Thread", "https://www.reddit.com/r/health", "What helped me", 2);
      ("Post", "https://healthunlocked.com/post", "Ask your GP", 2) ].
Proof. split; reflexivity. Qed.

(** * Further properties *)

(** ** Strings *)

Lemma append_assoc (a b c : string) : (a ++ b) ++ c = a ++ b ++ c.
Proof. induction a as [|x a IH]; cbn [append]; [reflexivity | now rewrite IH]. Qed.

(** An occurrence inside an occurrence is an occurrence. *)
Lemma contains_trans (a b c : string) :
  contains a b = true -> contains b c = true -> contains a c = true.
Proof.
  intros Hab Hbc.
  destruct (contains_split _ _ Hab) as (x & y & ->).
  destruct (contains_split _ _ Hbc) as (u & v & ->).
  replace (u ++ (x ++ a ++ y) ++ v) with ((u ++ x) ++ a ++ (y ++ v)).
  - apply contains_append.
  - now rewrite !append_assoc.
Qed.

(** ** Trust score *)

Section TrustScoreMore.
Context `{Urllib.Internals}.

(** The score of a link whose host is known, by the five tests. *)
Lemma compute_trust_score_of_host (link snippet host : string) :
  Urllib.urlparse_netloc link = Return host ->
  compute_trust_score link snippet =
  Return (Qmin (let base : Q :=
                  if top_tier (lower host) then 5
                  else if generic_tier (lower host) then 4.5
                  else if consumer_tier (lower host) then 4
                  else if literature_tier (lower host) then 3.5
                  else 3 in
                if recent snippet then base + 0.5 else base) 5.0).
Proof. intros E. rewrite compute_trust_score_cascade, E. reflexivity. Qed.

Lemma generic_tier_gov (domain : string) :
  contains "gov" domain = true -> generic_tier domain = true.
Proof. intros G. unfold generic_tier. cbn [existsb]. now rewrite G. Qed.

Lemma generic_tier_edu (domain : string) :
  contains "edu" domain = true -> generic_tier domain = true.
Proof. intros G. unfold generic_tier. cbn [existsb]. rewrite G. apply orb_true_r. Qed.

Lemma top_tier_site (site domain : string) :
  In site ["nhs.uk"; "cdc.gov"; "who.int"; "mayoclinic.org"; "clevelandclinic.org"] ->
  contains site domain = true -> top_tier domain = true.
Proof. intros Hin Hc. apply existsb_exists. now exists site. Qed.

(** From the first three tiers the score is at least 4; from the first
    two at least 4.5. *)
Lemma score_of_tiers (link snippet host : string) :
  Urllib.urlparse_netloc link = Return host ->
  exists v,
    compute_trust_score link snippet = Return v /\
    (top_tier (lower host) || generic_tier (lower host) = true -> 4.5 <= v) /\
    (top_tier (lower host) || generic_tier (lower host) || consumer_tier (lower host) = true
     -> 4 <= v).
Proof.
  intros E. rewrite (compute_trust_score_of_host _ _ _ E). eexists. split; [reflexivity|].
  destruct (top_tier (lower host)), (generic_tier (lower host)),
    (consumer_tier (lower host)), (literature_tier (lower host)), (recent snippet);
    cbn [orb]; split; intros T; try discriminate T; vm_compute; discriminate.
Qed.

End TrustScoreMore.

(** X1.  The recency bonus is given once: two snippets that each name
    at least one of the years 2022 to 2024, however many, give the same
    score to a link. *)
Theorem recency_bonus_once `{Urllib.Internals} (link s1 s2 y1 y2 : string) :
  In y1 ["2024"; "2023"; "2022"] -> contains y1 s1 = true ->
  In y2 ["2024"; "2023"; "2022"] -> contains y2 s2 = true ->
  compute_trust_score link s1 = compute_trust_score link s2.
Proof.
  intros I1 C1 I2 C2. rewrite !compute_trust_score_cascade.
  replace (recent s1) with true by (symmetry; apply existsb_exists; now exists y1).
  replace (recent s2) with true by (symmetry; apply existsb_exists; now exists y2).
  reflexivity.
Qed.

(** X1, witness: one year against two. *)
Lemma recency_bonus_once_witness :
  @compute_trust_score Urllib.lenient "https://www.nih.gov/health" "Reviewed in 2023"
  = @compute_trust_score Urllib.lenient "https://www.nih.gov/health" "2023, updated 2024".
Proof.
  exact (@recency_bonus_once Urllib.lenient "https://www.nih.gov/health"
           "Reviewed in 2023" "2023, updated 2024" "2023" "2024"
           (or_intror (or_introl eq_refl)) eq_refl (or_introl eq_refl) eq_refl).
Defined.

(** X2.  The score is 5 exactly when the host is in the top tier, or is
    in the generic government/education tier with a recent snippet; on
    the top tier the recency bonus changes nothing. *)
Theorem top_score_characterised `{Urllib.Internals} (link snippet host : string) (v : Q) :
  Urllib.urlparse_netloc link = Return host ->
  compute_trust_score link snippet = Return v ->
  (v == 5 <->
   top_tier (lower host) = true \/
   (generic_tier (lower host) = true /\ recent snippet = true)).
Proof.
  intros E S. rewrite (compute_trust_score_of_host _ _ _ E) in S. injection S as <-.
  destruct (top_tier (lower host)), (generic_tier (lower host)),
    (consumer_tier (lower host)), (literature_tier (lower host)), (recent snippet);
    cbv zeta; split;
    solve [ intros _; (now left) || (right; now split)
          | intros _; reflexivity
          | intros Q5; vm_compute in Q5; discriminate Q5
          | intros [T|[G R]]; discriminate ].
Qed.

(** X2, witness. *)
Lemma top_score_characterised_witness :
  Qmin (4.5 + 0.5) 5.0 == 5 <->
  top_tier (lower "www.nih.gov") = true \/
  (generic_tier (lower "www.nih.gov") = true /\ recent "Reviewed in 2023" = true).
Proof.
  exact (@top_score_characterised Urllib.lenient "https://www.nih.gov/health"
           "Reviewed in 2023" "www.nih.gov" _ eq_refl eq_refl).
Defined.

(** X3.  A host with medlineplus.gov or pubmed.ncbi.nlm.nih.gov in it
    has gov in it and is caught by the generic tier: it scores at least
    4.5, never the 4 or 3.5 of the tiers written for those names. *)
Theorem gov_hosts_never_reach_lower_tiers `{Urllib.Internals}
    (link snippet host : string) :
  Urllib.urlparse_netloc link = Return host ->
  contains "medlineplus.gov" (lower host) = true \/
  contains "pubmed.ncbi.nlm.nih.gov" (lower host) = true ->
  exists v, compute_trust_score link snippet = Return v /\ 4.5 <= v.
Proof.
  intros E Hc.
  assert (G : generic_tier (lower host) = true).
  { apply generic_tier_gov.
    destruct Hc as [Hc|Hc]; (eapply contains_trans; [|exact Hc]); reflexivity. }
  destruct (score_of_tiers link snippet host E) as (v & S & lo & _).
  exists v. split; [exact S|]. apply lo. rewrite G. apply orb_true_r.
Qed.

(** X3, witness. *)
Lemma gov_hosts_never_reach_lower_tiers_witness :
  exists v, @compute_trust_score Urllib.lenient "https://medlineplus.gov/flu.html" "Flu"
            = Return v /\ 4.5 <= v.
Proof.
  exact (@gov_hosts_never_reach_lower_tiers Urllib.lenient
           "https://medlineplus.gov/flu.html" "Flu" "medlineplus.gov"
           eq_refl (or_introl eq_refl)).
Defined.

(** X4.  Every site the medical search is restricted to is known to the
    scoring: a link whose host has the name of a trusted site in it
    scores at least 4. *)
Theorem trusted_sites_score_at_least_4 `{Urllib.Internals}
    (link snippet host site : string) :
  In ("site:" ++ site) TRUSTED_SITES ->
  Urllib.urlparse_netloc link = Return host ->
  contains site (lower host) = true ->
  exists v, compute_trust_score link snippet = Return v /\ 4 <= v.
Proof.
  intros Hin E Hc.
  destruct (score_of_tiers link snippet host E) as (v & S & _ & lo).
  exists v. split; [exact S|]. apply lo. clear lo S.
  unfold TRUSTED_SITES in Hin. cbn [In append] in Hin.
  assert (gov : forall s, s = site -> contains "gov" s = true ->
                          generic_tier (lower host) = true).
  { intros s <- Hs. apply generic_tier_gov. now apply contains_trans with (b := s). }
  assert (top : forall s, s = site ->
                  In s ["nhs.uk"; "cdc.gov"; "who.int"; "mayoclinic.org"; "clevelandclinic.org"] ->
                  top_tier (lower host) = true).
  { intros s <- Hs. now apply top_tier_site with (site := s). }
  destruct Hin as [Hin|[Hin|[Hin|[Hin|[Hin|[Hin|[Hin|[Hin|[Hin|[Hin|[]]]]]]]]]]];
    injection Hin as Hin.
  - rewrite (top _ Hin); [reflexivity | cbn [In]; tauto].
  - rewrite (gov _ Hin eq_refl). now rewrite orb_true_r.
  - rewrite (top _ Hin); [reflexivity | cbn [In]; tauto].
  - rewrite (top _ Hin); [reflexivity | cbn [In]; tauto].
  - rewrite (top _ Hin); [reflexivity | cbn [In]; tauto].
  - rewrite (top _ Hin); [reflexivity | cbn [In]; tauto].
  - assert (G : generic_tier (lower host) = true).
    { apply generic_tier_edu. subst site.
      now apply contains_trans with (b := "health.harvard.edu"). }
    rewrite G. now rewrite orb_true_r.
  - rewrite (gov _ Hin eq_refl). now rewrite orb_true_r.
  - subst site. unfold consumer_tier. rewrite Hc. cbn [orb]. now rewrite !orb_true_r.
  - rewrite (gov _ Hin eq_refl). now rewrite orb_true_r.
Qed.

(** X4, witness: the consumer site, the lowest of them. *)
Lemma trusted_sites_score_at_least_4_witness :
  exists v, @compute_trust_score Urllib.lenient "https://www.webmd.com/cold" "Colds"
            = Return v /\ 4 <= v.
Proof.
  refine (@trusted_sites_score_at_least_4 Urllib.lenient
            "https://www.webmd.com/cold" "Colds" "www.webmd.com" "webmd.com"
            _ eq_refl eq_refl).
  cbn. tauto.
Defined.

(** ** Links without authority *)

Lemma forall_chars_lstrip (p drop : ascii -> bool) (s : string) :
  forall_chars p s = true -> forall_chars p (lstrip_chars drop s) = true.
Proof.
  induction s as [|c s IH]; cbn [lstrip_chars forall_chars]; [reflexivity|].
  intros Hs. destruct (drop c); [|exact Hs].
  apply andb_true_iff in Hs as [_ Hs]. now apply IH.
Qed.

Lemma forall_chars_filter (p keep : ascii -> bool) (s : string) :
  forall_chars p s = true -> forall_chars p (filter_chars keep s) = true.
Proof.
  induction s as [|c s IH]; cbn [filter_chars forall_chars]; [reflexivity|].
  intros Hs. apply andb_true_iff in Hs as [Hc Hs].
  destruct (keep c); cbn [forall_chars]; [rewrite Hc|]; now apply IH.
Qed.

Lemma forall_chars_split (p : ascii -> bool) (c : ascii) (s pre post : string) :
  forall_chars p s = true -> split_at_char c s = Some (pre, post) ->
  forall_chars p post = true.
Proof.
  revert pre. induction s as [|d s IH]; cbn [split_at_char forall_chars]; intros pre Hs E.
  - discriminate.
  - apply andb_true_iff in Hs as [_ Hs]. destruct (Ascii.eqb c d).
    + injection E as _ <-. exact Hs.
    + destruct (split_at_char c s) as [[pre' post']|]; [|discriminate].
      injection E as _ <-. now apply (IH pre').
Qed.

Lemma forall_chars_drop_scheme (p : ascii -> bool) (url : string) :
  forall_chars p url = true -> forall_chars p (Urllib.drop_scheme url) = true.
Proof.
  intros Hs. unfold Urllib.drop_scheme.
  destruct (split_at_char ":" url) as [[[|c0 pre] post]|] eqn:E; try exact Hs.
  destruct (_ && _); [|exact Hs].
  exact (forall_chars_split _ _ _ _ _ Hs E).
Qed.

(** X5.  Only the authority of a link is scored.  A link without any
    slash in it, such as a bare host name, has no authority: its score is
    the default 3, or 3.5 with a recent snippet, whatever names it holds. *)
Theorem link_without_slash_scores_default `{Urllib.Internals} (link snippet : string) :
  forall_chars (fun c => negb (Ascii.eqb c "/")) link = true ->
  compute_trust_score link snippet = Return (if recent snippet then 3.5 else 3).
Proof.
  intros Hs.
  assert (E : Urllib.urlparse_netloc link = Return EmptyString).
  { unfold Urllib.urlparse_netloc.
    set (url := Urllib.drop_scheme _).
    assert (Hu : forall_chars (fun c => negb (Ascii.eqb c "/")) url = true)
      by now apply forall_chars_drop_scheme, forall_chars_filter, forall_chars_lstrip.
    destruct url as [|c url']; [reflexivity|].
    cbn [forall_chars] in Hu. apply andb_true_iff in Hu as [Hc _].
    destruct c as [[] [] [] [] [] [] [] []]; try reflexivity. discriminate Hc. }
  rewrite (compute_trust_score_of_host _ _ _ E).
  destruct (recent snippet); reflexivity.
Qed.

(** X5, witness: the host name of the top tier, without a scheme. *)
Lemma link_without_slash_scores_default_witness :
  @compute_trust_score Urllib.lenient "www.nhs.uk" "Reviewed in 2023" = Return 3.5.
Proof.
  exact (@link_without_slash_scores_default Urllib.lenient "www.nhs.uk" "Reviewed in 2023"
           eq_refl).
Defined.

(** ** Advisories and severity *)

(** Entries picked from a table with distinct values have distinct
    values. *)
Lemma picked_values_distinct (keep : string * string -> bool)
    (table : list (string * string)) :
  NoDup (map snd table) -> NoDup (map snd (filter keep table)).
Proof.
  induction table as [|entry table IH]; cbn [map filter]; intros N; [constructor|].
  apply NoDup_cons_iff in N as [Hentry Htable].
  destruct (keep entry); cbn [map]; [|exact (IH Htable)].
  apply NoDup_cons; [|exact (IH Htable)].
  intros Hin. apply Hentry. apply in_map_iff in Hin as (other & Eo & Ho).
  apply filter_In in Ho as [Ho _]. apply in_map_iff. now exists other.
Qed.

Lemma get_risk_snippets_In (query advisory : string) :
  In advisory (get_risk_snippets query) <->
  exists keyword,
    In (keyword, advisory) RISK_SNIPPETS /\ contains keyword (lower query) = true.
Proof.
  unfold get_risk_snippets. rewrite in_map_iff. split.
  - intros ([keyword a] & <- & Hin). apply filter_In in Hin as [Hin Hc].
    now exists keyword.
  - intros (keyword & Hin & Hc). exists (keyword, advisory). split; [reflexivity|].
    apply filter_In. now split.
Qed.

Lemma existsb_contains_extend (ws : list string) (before query after : string) :
  forallb isascii ws = true ->
  existsb (fun w => contains w (lower query)) ws = true ->
  existsb (fun w => contains w (lower (before ++ query ++ after))) ws = true.
Proof.
  intros Ha E. apply existsb_exists in E as (w & Hw & Hc).
  apply existsb_exists. exists w. split; [exact Hw|].
  apply contains_lower_extend; [|exact Hc].
  rewrite forallb_forall in Ha. now apply Ha.
Qed.

Lemma risk_keywords_ascii (keyword advisory : string) :
  In (keyword, advisory) RISK_SNIPPETS -> isascii keyword = true.
Proof.
  unfold RISK_SNIPPETS. cbn [In]. intros Hin.
  repeat (destruct Hin as [Hin|Hin]; [injection Hin as <- _; reflexivity|]). destruct Hin.
Qed.

Lemma classify_severity_cascade (query : string) :
  classify_severity query =
  if existsb (fun w => contains w (lower query))
       ["chest pain"; "vision loss"; "stroke"; "aneurysm"; "severe headache"]
  then IMMEDIATE
  else if existsb (fun w => contains w (lower query))
            ["high fever"; "severe pain"; "vomiting"; "sudden dizziness"]
  then URGENT
  else ROUTINE.
Proof.
  unfold classify_severity, SEVERITY_KEYWORDS. cbn [find].
  destruct (existsb _ _); [reflexivity|]. destruct (existsb _ _); reflexivity.
Qed.

(** X6.  No advisory is given twice, whatever the query, and there are
    at most nine. *)
Theorem advisories_never_repeat (query : string) :
  NoDup (get_risk_snippets query) /\ (length (get_risk_snippets query) <= 9)%nat.
Proof.
  split.
  - unfold get_risk_snippets. apply picked_values_distinct.
    unfold RISK_SNIPPETS. cbn [map snd].
    repeat (constructor; [cbn [In]; intuition discriminate|]). constructor.
  - unfold get_risk_snippets. rewrite length_map.
    apply (filter_length_le _ RISK_SNIPPETS).
Qed.

(** X7.  Text put before or after a query takes no advisory away. *)
Theorem advisories_kept_by_context (before query after advisory : string) :
  In advisory (get_risk_snippets query) ->
  In advisory (get_risk_snippets (before ++ query ++ after)).
Proof.
  rewrite !get_risk_snippets_In. intros (keyword & Hin & Hc).
  exists keyword. split; [exact Hin|].
  apply contains_lower_extend; [exact (risk_keywords_ascii _ _ Hin) | exact Hc].
Qed.

(** X7, witness: the demographic prefix of the page. *)
Lemma advisories_kept_by_context_witness :
  In "If rash is accompanied by fever or trouble breathing, see a doctor quickly."
     (get_risk_snippets ("For a 30-year-old female, " ++ "Itchy RASH on my arm" ++ " since May")).
Proof.
  apply (advisories_kept_by_context "For a 30-year-old female, " "Itchy RASH on my arm"
           " since May").
  cbn. tauto.
Defined.

(** X8.  The advisories for chest pain and for vision loss are only given
    with the Immediate severity. *)
Theorem emergency_advisory_means_immediate (query advisory : string) :
  In advisory (get_risk_snippets query) ->
  advisory = "Chest pain might indicate a heart attack. Go to the ER immediately." \/
  advisory = "Sudden vision loss is a medical emergency. Seek immediate care." ->
  classify_severity query = IMMEDIATE.
Proof.
  intros Hin Ha. apply get_risk_snippets_In in Hin as (keyword & Hin & Hc).
  assert (K : keyword = "chest pain" \/ keyword = "vision loss").
  { unfold RISK_SNIPPETS in Hin. cbn [In] in Hin.
    destruct Ha as [->| ->];
      repeat (destruct Hin as [Hin|Hin]; [try discriminate Hin; injection Hin as <-; auto|]);
      destruct Hin. }
  rewrite classify_severity_cascade.
  replace (existsb _ _) with true; [reflexivity|].
  symmetry. apply existsb_exists. exists keyword. split; [|exact Hc].
  cbn [In]. destruct K as [->| ->]; auto.
Qed.

(** X8, witness. *)
Lemma emergency_advisory_means_immediate_witness :
  classify_severity "Sudden Vision Loss in one eye" = IMMEDIATE.
Proof.
  apply (emergency_advisory_means_immediate "Sudden Vision Loss in one eye"
           "Sudden vision loss is a medical emergency. Seek immediate care.").
  - cbn. tauto.
  - right; reflexivity.
Defined.

(** X9.  Text put before or after a query never lowers its severity: an
    Immediate query stays Immediate, and an Urgent one does not become
    Routine. *)
Theorem severity_kept_by_context (before query after : string) :
  (classify_severity query = IMMEDIATE ->
   classify_severity (before ++ query ++ after) = IMMEDIATE) /\
  (classify_severity query = URGENT ->
   classify_severity (before ++ query ++ after) <> ROUTINE).
Proof.
  rewrite !classify_severity_cascade.
  pose proof (existsb_contains_extend
                ["chest pain"; "vision loss"; "stroke"; "aneurysm"; "severe headache"]
                before query after eq_refl) as Hi.
  pose proof (existsb_contains_extend
                ["high fever"; "severe pain"; "vomiting"; "sudden dizziness"]
                before query after eq_refl) as Hu.
  destruct (existsb _ ["chest pain"; _; _; _; _]) eqn:I.
  - rewrite (Hi eq_refl). split; [reflexivity | discriminate].
  - destruct (existsb _ ["high fever"; _; _; _]) eqn:U.
    + rewrite (Hu eq_refl). split; [discriminate|].
      intros _.
      match goal with |- context [if ?b then _ else _] => destruct b end; discriminate.
    + split; discriminate.
Qed.

(** X9, witness: the demographic prefix of the page. *)
Lemma severity_kept_by_context_witness :
  classify_severity ("For a 60-year-old male, " ++ "Is this a stroke" ++ "?") = IMMEDIATE.
Proof.
  exact (proj1 (severity_kept_by_context "For a 60-year-old male, " "Is this a stroke" "?")
               eq_refl).
Defined.

(** ** Medical search, further *)

Section SortMembers.
Context {A : Type} (sort_key : A -> Z).

Lemma insert_sorted_In (x y : A) (l : list A) :
  In x (insert_sorted sort_key y l) <-> x = y \/ In x l.
Proof.
  induction l as [|z l IH]; cbn [insert_sorted In].
  - intuition.
  - destruct (sort_key y <=? sort_key z)%Z; cbn [In]; [intuition|].
    rewrite IH. intuition.
Qed.

Lemma sort_In (x : A) (l : list A) : In x (sort sort_key l) <-> In x l.
Proof.
  induction l as [|y l IH]; cbn [sort fold_right In]; [reflexivity|].
  fold (sort sort_key l). rewrite insert_sorted_In, IH. intuition.
Qed.

End SortMembers.

(** The sort of [get_medical_snippets], for any number of items from
    nhs.uk: those first, then the others, each group in its order. *)
Lemma sort_nhs_partition (items : list Item) :
  sort nhs_first items =
  (filter (fun x => contains "nhs.uk" (get x "link" EmptyString)) items
   ++ filter (fun x => negb (contains "nhs.uk" (get x "link" EmptyString))) items)%list.
Proof.
  rewrite (sort_two_keys nhs_first nhs_first_two_keys). f_equal.
  - apply filter_ext. intros x. unfold nhs_first. now destruct (contains _ _).
  - apply filter_ext. intros x. unfold nhs_first. now destruct (contains _ _).
Qed.

Section MedicalMore.
Context `{Urllib.Internals}.

Lemma medical_loop_returns (items : list Item) (results out : list SourceRecord) :
  medical_loop items results = Return out ->
  exists records,
    out = (results ++ records)%list /\
    Forall2 (fun item record => medical_record item = Return record) items records.
Proof.
  revert results. induction items as [|item items IH]; intros results; cbn [medical_loop].
  - intros E; injection E as <-. exists []. split; [now rewrite app_nil_r | constructor].
  - destruct (medical_record item) as [record|e] eqn:R; cbn [bind]; [|discriminate].
    intros E. destruct (IH _ E) as (records & -> & F).
    exists (record :: records). split; [now rewrite <- app_assoc | now constructor].
Qed.

Lemma medical_loop_raises (items : list Item) (results : list SourceRecord)
    (item : Item) (e : Exn) :
  In item items -> medical_record item = Raise e ->
  exists e', medical_loop items results = Raise e'.
Proof.
  intros Hin R. revert results.
  induction items as [|x items IH]; intros results; [destruct Hin|].
  cbn [medical_loop]. destruct Hin as [->|Hin].
  - rewrite R. now exists e.
  - destruct (medical_record x); cbn [bind]; [now apply IH | eauto].
Qed.

Lemma medical_record_fields (item : Item) (title link snippet : string) (score : Q) :
  medical_record item = Return (title, link, snippet, score) ->
  lookup "title" item = Some title /\ lookup "link" item = Some link /\
  lookup "snippet" item = Some snippet /\
  compute_trust_score link snippet = Return score.
Proof.
  unfold medical_record, getitem.
  destruct (lookup "title" item) as [t|]; cbn [bind]; [|discriminate].
  destruct (lookup "link" item) as [l|]; cbn [bind]; [|discriminate].
  destruct (lookup "snippet" item) as [s|]; cbn [bind]; [|discriminate].
  destruct (compute_trust_score l s) as [v|] eqn:E; cbn [bind]; [|discriminate].
  intros R. injection R as <- <- <- <-. now rewrite E.
Qed.

(** What [get_medical_snippets] returns when nothing raises. *)
Lemma get_medical_snippets_success (w : World) (query : string) (n : Z)
    (response : Response) (items : list Item) :
  requests_get w SEARCH_URL (medical_params w query n) = Return response ->
  raise_for_status response = Return tt ->
  json response = Return (Some items) ->
  fst (get_medical_snippets w query n) =
  match medical_loop (sort nhs_first items) [] with
  | Return results => results
  | Raise _ => []
  end.
Proof.
  intros Eget Estatus Ejson. unfold get_medical_snippets. cbn [fst].
  rewrite Eget. cbn [bind]. rewrite Estatus. cbn [bind]. rewrite Ejson. reflexivity.
Qed.

End MedicalMore.

(** X10.  When the medical search call fails (the transport raises, the
    status is a 4xx or 5xx one, or the body is no JSON object),
    [get_medical_snippets] returns the empty list, after its one call. *)
Theorem medical_failure_gives_nothing `{Urllib.Internals}
    (w : World) (query : string) (n : Z) :
  search_fails (requests_get w SEARCH_URL (medical_params w query n)) ->
  get_medical_snippets w query n = ([], [SearchCall SEARCH_URL (medical_params w query n)]).
Proof.
  intros F. unfold get_medical_snippets. f_equal.
  inversion F as [e E|response Hstatus E|response Hbody E]; cbn [bind].
  - reflexivity.
  - unfold raise_for_status.
    destruct (Z.leb_spec 400 (status_code response)); [|lia].
    destruct (Z.ltb_spec (status_code response) 600); [|lia].
    reflexivity.
  - destruct (raise_for_status response); cbn [bind]; [|reflexivity].
    unfold json. now rewrite Hbody.
Qed.

(** X10, witness: the service answers 503. *)
Lemma medical_failure_gives_nothing_witness :
  fst (@get_medical_snippets Urllib.lenient
         (Sample.world
            (fun _ => Return {| status_code := 503;
                                body := JsonObject (Some [Sample.nhs]) |})
            Sample.answer)
         "sore throat" 5)
  = [].
Proof.
  refine (f_equal fst (@medical_failure_gives_nothing Urllib.lenient _ "sore throat" 5%Z _)).
  apply status_failure. cbn [status_code]. lia.
Defined.

(** X11.  The medical result is all or nothing: one item of the response
    that cannot be turned into a record (a key is missing, or [urlparse]
    rejects its link) empties the whole result, wherever the item stands. *)
Theorem one_bad_item_empties_result `{Urllib.Internals}
    (w : World) (query : string) (n : Z) (response : Response)
    (items : list Item) (item : Item) (e : Exn) :
  requests_get w SEARCH_URL (medical_params w query n) = Return response ->
  raise_for_status response = Return tt ->
  json response = Return (Some items) ->
  In item items -> medical_record item = Raise e ->
  fst (get_medical_snippets w query n) = [].
Proof.
  intros Eget Estatus Ejson Hin R.
  rewrite (get_medical_snippets_success _ _ _ _ _ Eget Estatus Ejson).
  apply (proj2 (sort_In nhs_first item items)) in Hin.
  destruct (medical_loop_raises _ [] _ _ Hin R) as [e' ->]. reflexivity.
Qed.

(** X11, witness: the last of three items has no snippet. *)
Lemma one_bad_item_empties_result_witness :
  fst (@get_medical_snippets Urllib.lenient
         (Sample.world (fun _ => Sample.ok [Sample.nhs; Sample.nih; Sample.bare])
                       Sample.answer)
         "sore throat" 5)
  = [].
Proof.
  apply (@one_bad_item_empties_result Urllib.lenient _ "sore throat" 5%Z
           {| status_code := 200;
              body := JsonObject (Some [Sample.nhs; Sample.nih; Sample.bare]) |}
           [Sample.nhs; Sample.nih; Sample.bare] Sample.bare (KeyError "snippet")).
  - reflexivity.
  - reflexivity.
  - reflexivity.
  - cbn [In]. tauto.
  - reflexivity.
Defined.

(** X12.  Ranking with any number of items from nhs.uk: when every item
    of the response gives a record, the result holds the records of the
    items whose link contains nhs.uk, in the order of the response, and
    then the records of the other items, in the order of the response. *)
Theorem nhs_items_first_others_in_order `{Urllib.Internals}
    (w : World) (query : string) (n : Z) (response : Response)
    (items : list Item) (records : list SourceRecord) :
  requests_get w SEARCH_URL (medical_params w query n) = Return response ->
  raise_for_status response = Return tt ->
  json response = Return (Some items) ->
  Forall2 (fun item record => medical_record item = Return record)
    (filter (fun x => contains "nhs.uk" (get x "link" EmptyString)) items
     ++ filter (fun x => negb (contains "nhs.uk" (get x "link" EmptyString))) items)
    records ->
  fst (get_medical_snippets w query n) = records.
Proof.
  intros Eget Estatus Ejson F.
  rewrite (get_medical_snippets_success _ _ _ _ _ Eget Estatus Ejson).
  rewrite sort_nhs_partition, (medical_loop_records _ _ [] F). reflexivity.
Qed.

(** X12, witness: two items from nhs.uk among four. *)
Lemma nhs_items_first_others_in_order_witness :
  fst (@get_medical_snippets Urllib.lenient
         (Sample.world
            (fun _ => Sample.ok [Sample.blog; Sample.nhs; Sample.nih;
                                 Sample.item "NHS 111" "https://111.nhs.uk/" "Get help"])
            Sample.answer)
         "sore throat" 5)
  = [ ("NHS", "https://www.nhs.uk/conditions/", "Reviewed in 2023", Qmin (5 + 0.5) 5.0);
      ("NHS 111", "https://111.nhs.uk/", "Get help", Qmin 5 5.0);
      ("Blog", "https://example.com/blog", "My story", Qmin 3 5.0);
      ("NIH", "https://www.nih.gov/health", "Overview", Qmin 4.5 5.0) ].
Proof.
  apply (@nhs_items_first_others_in_order Urllib.lenient _ "sore throat" 5%Z
           {| status_code := 200;
              body := JsonObject
                        (Some [Sample.blog; Sample.nhs; Sample.nih;
                               Sample.item "NHS 111" "https://111.nhs.uk/" "Get help"]) |}
           [Sample.blog; Sample.nhs; Sample.nih;
            Sample.item "NHS 111" "https://111.nhs.uk/" "Get help"]).
  - reflexivity.
  - reflexivity.
  - reflexivity.
  - repeat constructor.
Defined.

(** X13.  Every record of the medical result is made from an item of
    the response: it carries the title, link and snippet of that item and
    the trust score of that link and snippet, which lies between 3 and 5. *)
Theorem medical_records_come_from_items `{Urllib.Internals}
    (w : World) (query : string) (n : Z) :
  Forall (fun '(title, link, snippet, score) =>
            (exists item,
               In item (response_items (requests_get w SEARCH_URL (medical_params w query n)))
               /\ lookup "title" item = Some title
               /\ lookup "link" item = Some link
               /\ lookup "snippet" item = Some snippet)
            /\ compute_trust_score link snippet = Return score
            /\ 3 <= score /\ score <= 5)
         (fst (get_medical_snippets w query n)).
Proof.
  unfold get_medical_snippets, response_items. cbn [fst].
  destruct (requests_get w SEARCH_URL (medical_params w query n)) as [response|e];
    cbn [bind]; [|constructor].
  destruct (raise_for_status response); cbn [bind]; [|constructor].
  unfold json. destruct (body response) as [|[items|]]; cbn [bind get_items];
    [constructor | | constructor].
  destruct (medical_loop _ _) as [out|e] eqn:E; [|constructor].
  destruct (medical_loop_returns _ _ _ E) as (records & -> & F). cbn [app].
  assert (G : forall sorted, Forall2 (fun item record => medical_record item = Return record)
                               sorted records ->
              (forall item, In item sorted -> In item items) ->
              Forall (fun '(title, link, snippet, score) =>
                        (exists item, In item items /\ lookup "title" item = Some title
                                      /\ lookup "link" item = Some link
                                      /\ lookup "snippet" item = Some snippet)
                        /\ compute_trust_score link snippet = Return score
                        /\ 3 <= score /\ score <= 5) records).
  { clear. intros sorted F. induction F as [|item [[[t l] s] v] sorted records R _ IH];
      intros Hsub; constructor.
    - destruct (medical_record_fields _ _ _ _ _ R) as (Ht & Hl & Hs & Hv).
      destruct (compute_trust_score_range _ _ _ Hv) as [lo hi].
      split; [|split; [exact Hv | split; [exact lo | exact hi]]].
      exists item. split; [apply Hsub; left; reflexivity | split; [exact Ht | split; [exact Hl | exact Hs]]].
    - apply IH. intros x Hx. apply Hsub. now right. }
  apply (G _ F). intros item Hin. exact (proj1 (sort_In nhs_first item items) Hin).
Qed.

(** ** Answering, further *)

Lemma answer_prompt_parts (context question : string) :
  answer_prompt context question =
  (nl ++ "Answer clearly using snippets below." ++ nl
      ++ "Mention both common and serious conditions if symptoms provided." ++ nl
      ++ "End with: " ++ dquote ++ "Talk to a doctor to be sure." ++ dquote ++ nl
      ++ nl ++ "Snippets:" ++ nl)
  ++ context ++ (nl ++ nl ++ "Question: ") ++ question ++ (nl ++ nl ++ "Answer:" ++ nl).
Proof. reflexivity. Qed.

Lemma contains_left (b rest : string) : contains b (b ++ rest) = true.
Proof. exact (contains_append EmptyString b rest). Qed.

Lemma contains_right (a b : string) : contains b (a ++ b) = true.
Proof. rewrite <- (append_empty_r b) at 2. apply contains_append. Qed.

Lemma contains_skip (w a b : string) :
  contains w b = true -> contains w (a ++ b) = true.
Proof. intros Hc. apply contains_trans with (b := b); [exact Hc | apply contains_right]. Qed.

Lemma contains_in_append (w a b c : string) :
  contains w b = true -> contains w (a ++ b ++ c) = true.
Proof. intros Hc. apply contains_trans with (b := b); [exact Hc | apply contains_append]. Qed.

Lemma contains_in_concat (w sep s : string) (l : list string) :
  In s l -> contains w s = true -> contains w (String.concat sep l) = true.
Proof.
  intros Hin Hc. induction l as [|x l IH]; [destruct Hin|].
  cbn [String.concat]. destruct l as [|y l].
  - destruct Hin as [->|[]]. exact Hc.
  - destruct Hin as [->|Hin].
    + apply contains_trans with (b := s); [exact Hc | apply contains_left].
    + apply contains_trans with (b := String.concat sep (y :: l)); [now apply IH|].
      rewrite <- append_assoc. apply contains_right.
Qed.

(** X14.  [answer_medical_question] ends in one of three ways: the
    fallback text with no source, after the search call alone; the error
    text with no source, after a completion call that raised; or the text
    of the model, stripped, with the disclaimer after it and all the
    records of the search as sources.  So sources are only returned with
    an answer of the model, and there is never more than one completion
    call. *)
Theorem answer_outcomes `{Urllib.Internals} (w : World) (question : string) :
  let search := SearchCall SEARCH_URL (medical_params w question 5) in
  let found := fst (get_medical_snippets w question 5) in
  (found = [] /\
   answer_medical_question w question
   = (("Sorry, no reliable sources available now.", []), [search])) \/
  (exists prompt cause,
     found <> [] /\
     chat_completions_create w "gpt-4o" prompt = CompletionRaises cause /\
     answer_medical_question w question
     = (("OpenAI API Error: " ++ cause, []), [search; CompletionCall "gpt-4o" prompt])) \/
  (exists prompt content,
     found <> [] /\
     chat_completions_create w "gpt-4o" prompt = CompletionContent content /\
     answer_medical_question w question
     = ((strip content ++ nl ++ nl
           ++ "**Disclaimer:** Always consult your healthcare provider.", found),
        [search; CompletionCall "gpt-4o" prompt])).
Proof.
  cbv zeta. pose proof (get_medical_snippets_calls w question 5) as C.
  unfold answer_medical_question.
  destruct (get_medical_snippets w question 5) as [snippets calls].
  cbn [fst snd] in C |- *. subst calls.
  destruct snippets as [|record snippets]; [left; now split|].
  right. cbv beta iota zeta. set (sent := answer_prompt _ question).
  rewrite answer_sources.
  destruct (chat_completions_create w MODEL sent) as [cause|content] eqn:E.
  - left. exists sent, cause. repeat split; [discriminate | exact E].
  - right. exists sent, content. repeat split; [discriminate | exact E].
Qed.

(** X15.  The prompt sent to the completion model holds the question and
    the title and the snippet of every record found; the model asked is
    gpt-4o. *)
Theorem prompt_holds_question_and_snippets `{Urllib.Internals}
    (w : World) (question model prompt title link snippet : string) (score : Q) :
  In (CompletionCall model prompt) (snd (answer_medical_question w question)) ->
  In (title, link, snippet, score) (fst (get_medical_snippets w question 5)) ->
  model = "gpt-4o" /\
  contains question prompt = true /\
  contains title prompt = true /\
  contains snippet prompt = true.
Proof.
  pose proof (get_medical_snippets_calls w question 5) as C.
  unfold answer_medical_question.
  destruct (get_medical_snippets w question 5) as [snippets calls].
  cbn [fst snd] in C |- *. subst calls.
  destruct snippets as [|record snippets]; cbv beta iota zeta.
  - intros _ [].
  - set (found := record :: snippets).
    set (context := String.concat nl _). cbn [snd app In].
    intros [Hc|[Hc|[]]] Hin; [discriminate|]. injection Hc as <- <-.
    assert (Hline : forall part, contains part ("- **" ++ title ++ "**: " ++ snippet) = true ->
                                 contains part context = true).
    { intros part Hp. unfold context.
      apply contains_in_concat with (s := "- **" ++ title ++ "**: " ++ snippet); [|exact Hp].
      apply in_map_iff. now exists (title, link, snippet, score). }
    rewrite answer_prompt_parts.
    split; [reflexivity | split; [|split]].
    + apply contains_skip, contains_skip, contains_skip, contains_left.
    + apply contains_in_append, Hline. apply contains_append.
    + apply contains_in_append, Hline. apply contains_skip, contains_skip, contains_right.
Qed.

(** X15, witness. *)
Lemma prompt_holds_question_and_snippets_witness :
  exists prompt,
    In (CompletionCall "gpt-4o" prompt)
       (snd (@answer_medical_question Urllib.lenient
               (Sample.world (fun _ => Sample.ok [Sample.nhs]) Sample.answer) "sore throat"))
    /\ contains "sore throat" prompt = true
    /\ contains "NHS" prompt = true
    /\ contains "Reviewed in 2023" prompt = true.
Proof.
  eexists. split; [right; left; reflexivity|].
  refine (proj2 (@prompt_holds_question_and_snippets Urllib.lenient
            (Sample.world (fun _ => Sample.ok [Sample.nhs]) Sample.answer)
            "sore throat" "gpt-4o" _ "NHS" "https://www.nhs.uk/conditions/"
            "Reviewed in 2023" (Qmin (5 + 0.5) 5.0) _ _)).
  - right; left; reflexivity.
  - left; reflexivity.
Defined.

(** ** Social media search, further *)

Section SocialMore.
Context `{Urllib.Internals}.

Lemma social_loop_app (items : list Item) (before snippets : list SourceRecord) :
  fst (social_loop items (before ++ snippets))
  = (before ++ fst (social_loop items snippets))%list.
Proof.
  revert snippets. induction items as [|item items IH]; intros snippets; cbn [social_loop].
  - reflexivity.
  - destruct (social_record item) as [record|e]; [|reflexivity].
    rewrite <- app_assoc. apply IH.
Qed.

(** What one platform adds does not depend on what is in the list. *)
Lemma social_site_app (w : World) (query site : string) (n : Z)
    (snippets : list SourceRecord) :
  social_site w query n snippets site
  = (snippets ++ social_site w query n [] site)%list.
Proof.
  unfold social_site. destruct (bind _ _) as [items|e].
  - rewrite <- (app_nil_r snippets) at 1. apply social_loop_app.
  - now rewrite app_nil_r.
Qed.

(** The loop keeps the records of the items in front of the first item
    that raises. *)
Lemma social_loop_stops (good rest : list Item) (bad : Item) (e : Exn)
    (records snippets : list SourceRecord) :
  Forall2 (fun item record => social_record item = Return record) good records ->
  social_record bad = Raise e ->
  social_loop (good ++ bad :: rest) snippets = ((snippets ++ records)%list, Raise e).
Proof.
  intros F R. revert snippets.
  induction F as [|item record good records E _ IH]; intros snippets;
    cbn [app social_loop].
  - now rewrite R, app_nil_r.
  - rewrite E, IH, <- app_assoc. reflexivity.
Qed.

End SocialMore.

(** X16.  The social result is what the call for reddit.com adds,
    followed by what the call for healthunlocked.com adds, and neither
    part depends on the other call. *)
Theorem social_result_is_concatenation `{Urllib.Internals}
    (w : World) (query : string) (n : Z) :
  fst (get_social_snippets w query n)
  = (social_site w query n [] "site:reddit.com"
     ++ social_site w query n [] "site:healthunlocked.com")%list.
Proof.
  unfold get_social_snippets, SOCIAL_MEDIA_SITES. cbn [fst fold_left].
  apply social_site_app.
Qed.

(** X17.  When an item of one platform cannot be turned into a record,
    that platform adds the records of the items in front of it and
    nothing of what follows it. *)
Theorem social_platform_keeps_records_before_failure `{Urllib.Internals}
    (w : World) (query site : string) (n : Z) (response : Response)
    (good rest : list Item) (bad : Item) (e : Exn)
    (records snippets : list SourceRecord) :
  requests_get w SEARCH_URL (social_params w query site n) = Return response ->
  raise_for_status response = Return tt ->
  json response = Return (Some (good ++ bad :: rest)%list) ->
  Forall2 (fun item record => social_record item = Return record) good records ->
  social_record bad = Raise e ->
  social_site w query n snippets site = (snippets ++ records)%list.
Proof.
  intros Eget Estatus Ejson F R. unfold social_site.
  rewrite Eget. cbn [bind]. rewrite Estatus. cbn [bind]. rewrite Ejson. cbn [bind get_items].
  now rewrite (social_loop_stops _ _ _ _ _ _ F R).
Qed.

(** X17, witness: the second of three items has no snippet. *)
Lemma social_platform_keeps_records_before_failure_witness :
  @social_site Urllib.lenient
     (Sample.world (fun _ => Sample.ok [Sample.reddit; Sample.bare; Sample.forum])
                   Sample.answer)
     "sore throat" 5 [] "site:reddit.com"
  = [("Thread", "https://www.reddit.com/r/health", "What helped me",
      Qmax (Qmin 3 5.0 - 1) 1.0)].
Proof.
  apply (@social_platform_keeps_records_before_failure Urllib.lenient _
           "sore throat" "site:reddit.com" 5%Z
           {| status_code := 200;
              body := JsonObject (Some [Sample.reddit; Sample.bare; Sample.forum]) |}
           [Sample.reddit] [Sample.forum] Sample.bare (KeyError "snippet") _ []).
  - reflexivity.
  - reflexivity.
  - reflexivity.
  - repeat constructor.
  - reflexivity.
Defined.

(** X18.  The social search and the medical search read an item in the
    same way: where the medical record of an item has the score [v], its
    social record has the same title, link and snippet and the score
    [v - 1]; where the one raises, so does the other, with the same
    exception. *)
Theorem social_record_is_medical_record_less_one `{Urllib.Internals} (item : Item) :
  match medical_record item with
  | Return (title, link, snippet, v) =>
      social_record item = Return (title, link, snippet, v - 1)
  | Raise e => social_record item = Raise e
  end.
Proof.
  unfold medical_record, social_record.
  destruct (getitem item "title") as [t|]; cbn [bind]; [|reflexivity].
  destruct (getitem item "link") as [l|]; cbn [bind]; [|reflexivity].
  destruct (getitem item "snippet") as [s|]; cbn [bind]; [|reflexivity].
  destruct (compute_trust_score l s) as [v|] eqn:E; cbn [bind]; [|reflexivity].
  destruct (compute_trust_score_range _ _ _ E) as [lo _].
  cbv zeta. now rewrite (proj1 (floor_is_idle _ lo)).
Qed.

(** ** Stars *)

(** X19.  A source of the medical search is shown with three, four or
    five stars, and the same link and snippet as a social post with one
    star less: the half points of the score are never shown. *)
Theorem stars_shown `{Urllib.Internals} (link snippet : string) (v : Q) :
  compute_trust_score link snippet = Return v ->
  (stars v = "⭐⭐⭐" /\ stars (Qmax (v - 1) 1.0) = "⭐⭐") \/
  (stars v = "⭐⭐⭐⭐" /\ stars (Qmax (v - 1) 1.0) = "⭐⭐⭐") \/
  (stars v = "⭐⭐⭐⭐⭐" /\ stars (Qmax (v - 1) 1.0) = "⭐⭐⭐⭐").
Proof.
  rewrite compute_trust_score_cascade.
  destruct (Urllib.urlparse_netloc link) as [netloc|e]; cbn [bind]; [|discriminate].
  intros E; injection E as <-.
  destruct (top_tier (lower netloc)), (generic_tier (lower netloc)),
    (consumer_tier (lower netloc)), (literature_tier (lower netloc)),
    (recent snippet); cbv zeta;
    first [ left; split; reflexivity
          | right; left; split; reflexivity
          | right; right; split; reflexivity ].
Qed.

(** X19, witness: 4.5 is shown as four stars. *)
Lemma stars_shown_witness :
  (stars 4.5 = "⭐⭐⭐" /\ stars (Qmax (4.5 - 1) 1.0) = "⭐⭐") \/
  (stars 4.5 = "⭐⭐⭐⭐" /\ stars (Qmax (4.5 - 1) 1.0) = "⭐⭐⭐") \/
  (stars 4.5 = "⭐⭐⭐⭐⭐" /\ stars (Qmax (4.5 - 1) 1.0) = "⭐⭐⭐⭐").
Proof.
  exact (@stars_shown Urllib.lenient "https://www.nih.gov/health" "Overview" 4.5 eq_refl).
Defined.

(** X20.  When the calls for both platforms fail, the social result is
    empty; both calls were made, first the one for reddit.com. *)
Theorem social_double_failure_gives_nothing `{Urllib.Internals}
    (w : World) (query : string) (n : Z) :
  search_fails (requests_get w SEARCH_URL (social_params w query "site:reddit.com" n)) ->
  search_fails
    (requests_get w SEARCH_URL (social_params w query "site:healthunlocked.com" n)) ->
  get_social_snippets w query n
  = ([], [ SearchCall SEARCH_URL (social_params w query "site:reddit.com" n);
           SearchCall SEARCH_URL (social_params w query "site:healthunlocked.com" n) ]).
Proof.
  intros F1 F2. unfold get_social_snippets, SOCIAL_MEDIA_SITES. cbn [fold_left map].
  now rewrite (social_site_failure _ _ _ _ _ F1), (social_site_failure _ _ _ _ _ F2).
Qed.

(** X20, witness: the network is down. *)
Lemma social_double_failure_gives_nothing_witness :
  fst (@get_social_snippets Urllib.lenient
         (Sample.world (fun _ => Raise ConnectionError) Sample.answer) "sore throat" 5)
  = [].
Proof.
  exact (f_equal fst (@social_double_failure_gives_nothing Urllib.lenient
           (Sample.world (fun _ => Raise ConnectionError) Sample.answer) "sore throat" 5%Z
           (transport_failure ConnectionError) (transport_failure ConnectionError))).
Defined.
